(** * HKDC exchange: ledger and withdrawal engine

    A shallow embedding of the custodial ledger of the HKDC exchange API
    ([models.py], [schemas.py], [crud.py], [blockchain_service.py] and the
    request handlers of [main.py]).

    - Tables are lists of rows in insertion order; a query's [.first()] is
      [List.find], and an attribute assignment on the object a query returned
      rewrites that row in place.
    - Monetary amounts are Python [float]s, that is IEEE-754 binary64 values:
      they are modelled by Rocq's primitive floats, so that [+], unary [-],
      [<] and [*] are the very operations the interpreter performs.
    - A SQLAlchemy session is a record holding the current tables, the wall
      clock, and the list of the states made durable by each [db.commit()].
    - The call [blockchain_service.transfer_hkdc] made by the withdrawal
      handler leaves the process: the handler is a resumable computation that
      stops at the call and continues with the outcome of the call.
    - Failures of the database itself (lost connection, violated constraint)
      are outside the model: a commit always succeeds. *)

From Stdlib Require Import ZArith List String Bool Floats Lia.
Import ListNotations.

Set Warnings "-inexact-float".

Local Open Scope string_scope.
Local Open Scope Z_scope.

(** ** Python values *)

(** A raised Python exception, as far as the handlers look at it: its class
    and the text [str(e)]. *)
Record PyException := mkExc { exc_type : string; exc_str : string }.

Inductive Raises (A : Type) : Type :=
| Value (a : A)
| Raise (e : PyException).
Arguments Value {A} a.
Arguments Raise {A} e.

(** [float(n)] for a Python [int]: the nearest binary64 value, ties to even;
    an [int] beyond the binary64 range raises [OverflowError]. *)
Definition float_of_int (n : Z) : Raises float :=
  let f := SF2Prim (binary_normalize prec emax n 0 false) in
  if PrimFloat.is_infinity f
  then Raise (mkExc "OverflowError" "int too large to convert to float")
  else Value f.

(** [int(x)] for a Python [float]: truncation toward zero. *)
Definition int_of_float (x : float) : Raises Z :=
  match Prim2SF x with
  | S754_zero _ => Value 0
  | S754_finite sign m e =>
      let magnitude :=
        match e with
        | Z0 => Zpos m
        | Zpos p => Zpos m * 2 ^ Zpos p
        | Zneg p => Zpos m / 2 ^ Zpos p
        end in
      Value (if sign then - magnitude else magnitude)
  | S754_infinity _ =>
      Raise (mkExc "OverflowError" "cannot convert float infinity to integer")
  | S754_nan =>
      Raise (mkExc "ValueError" "cannot convert float NaN to integer")
  end.

(** The rational number a finite binary64 value stands for, as a fraction
    [(numerator, denominator)] whose denominator is a power of two; [None]
    for infinities and NaN. *)
Definition exact_value (x : float) : option (Z * Z) :=
  match Prim2SF x with
  | S754_zero _ => Some (0, 1)
  | S754_finite sign m e =>
      let n := if sign then Zneg m else Zpos m in
      match e with
      | Z0 => Some (n, 1)
      | Zpos p => Some (n * 2 ^ Zpos p, 1)
      | Zneg p => Some (n, 2 ^ Zpos p)
      end
  | _ => None
  end.

(** Equality and sum of such fractions, by cross multiplication. *)
Definition frac_eq (a b : Z * Z) : bool :=
  (fst a * snd b =? fst b * snd a).

Definition frac_add (a b : Z * Z) : Z * Z :=
  (fst a * snd b + fst b * snd a, snd a * snd b).

(** Whether [c] stands for the sum of the numbers [a] and [b] stand for. *)
Definition exact_sum_holds (a b c : float) : bool :=
  match exact_value a, exact_value b, exact_value c with
  | Some x, Some y, Some z => frac_eq (frac_add x y) z
  | _, _, _ => false
  end.

(** The number [amount] stands for, times [10 ** decimals], truncated toward
    zero: the conversion to the smallest unit carried out without rounding. *)
Definition exact_scaled (decimals : N) (amount : float) : option Z :=
  match exact_value amount with
  | Some (n, d) => Some (Z.quot (n * 10 ^ Z.of_N decimals) d)
  | None => None
  end.

(** ** models.py *)

Module User.
Record t := mk {
  id : Z;
  email : string;
  full_name : option string;
  identity_card_number : option string;
  hashed_password : string;
  status : string
}.
End User.

Module Account.
Record t := mk {
  id : Z;
  balance : float;
  user_id : Z
}.
End Account.

Module Transaction.
Record t := mk {
  id : Z;
  initiator_user_id : Z;
  recipient_user_id : option Z;
  initiator_web3_address : option string;
  recipient_web3_address : option string;
  bank_account_id : option Z;
  type : string;
  amount : float;
  tx_hash : option string;
  status : string;
  created_at : Z;
  completed_at : option Z
}.
End Transaction.

Module BankAccount.
Record t := mk {
  id : Z;
  account_name : string;
  bank_name : string;
  card_number : string;
  user_id : Z
}.
End BankAccount.

Module WithdrawalWhitelist.
Record t := mk {
  id : Z;
  address : string;
  label : string;
  status : string;
  frozen_at : option Z
}.
End WithdrawalWhitelist.

(** The five tables. *)
Record Tables := mkTables {
  users : list User.t;
  accounts : list Account.t;
  transactions : list Transaction.t;
  bank_accounts : list BankAccount.t;
  withdrawal_whitelist : list WithdrawalWhitelist.t
}.

(** A session: the tables as the session sees them, the clock that
    [datetime.utcnow()] and the server default [now()] read, and the states
    made durable so far, the latest first. *)
Record Session := mkSession {
  tables : Tables;
  utcnow : Z;
  commit_log : list Tables
}.

(** [db.commit()]: the current tables become durable. *)
Definition commit (t : Tables) (s : Session) : Session :=
  {| tables := t; utcnow := utcnow s; commit_log := t :: commit_log s |}.

(** ** schemas.py *)

Record KYCSumbit := mkKYC {
  kyc_full_name : string;
  kyc_identity_card_number : string
}.

Record DepositBankRequest := mkDeposit { deposit_amount : float }.

Record TransferRequest := mkTransfer {
  recipient_email : string;
  transfer_amount : float
}.

Record WithdrawBankRequest := mkWithdrawBank {
  withdraw_bank_amount : float;
  withdraw_bank_account_id : Z
}.

Record WithdrawWeb3Request := mkWithdrawWeb3 {
  withdraw_amount : float;
  recipient_web3_address : string
}.

(** [Field(..., gt=0)] on every amount. *)
Definition gt0 (amount : float) : bool := PrimFloat.ltb 0%float amount.

(** ** Rows of a table *)

(** The object returned by [.first()] is a row of the table; assigning to
    its attributes rewrites that row, the first one the filter selects. *)
Fixpoint update_first {A : Type} (p : A -> bool) (f : A -> A) (l : list A)
  : list A :=
  match l with
  | [] => []
  | x :: rest => if p x then f x :: rest else x :: update_first p f rest
  end.

Definition option_eqb {A : Type} (eqb : A -> A -> bool) (o : option A) (v : A)
  : bool :=
  match o with
  | Some x => eqb x v
  | None => false
  end.

(** ** crud.py *)

Definition get_user_by_email (s : Session) (email : string) : option User.t :=
  find (fun u => String.eqb (User.email u) email) (users (tables s)).

(** [db.query(models.User).filter(models.User.id == user_id).first()] *)
Definition get_user_by_id (s : Session) (user_id : Z) : option User.t :=
  find (fun u => User.id u =? user_id) (users (tables s)).

(** [db.query(models.User).filter(models.User.identity_card_number == n).first()];
    a row whose number is NULL is never selected. *)
Definition get_user_by_identity_card_number (s : Session) (n : string)
  : option User.t :=
  find (fun u => option_eqb String.eqb (User.identity_card_number u) n)
       (users (tables s)).

Definition set_users (t : Tables) (us : list User.t) : Tables :=
  {| users := us; accounts := accounts t; transactions := transactions t;
     bank_accounts := bank_accounts t;
     withdrawal_whitelist := withdrawal_whitelist t |}.

Definition set_accounts (t : Tables) (acs : list Account.t) : Tables :=
  {| users := users t; accounts := acs; transactions := transactions t;
     bank_accounts := bank_accounts t;
     withdrawal_whitelist := withdrawal_whitelist t |}.

Definition set_transactions (t : Tables) (txs : list Transaction.t) : Tables :=
  {| users := users t; accounts := accounts t; transactions := txs;
     bank_accounts := bank_accounts t;
     withdrawal_whitelist := withdrawal_whitelist t |}.

(** The three assignments of [submit_kyc_info] on the user object. *)
Definition kyc_assign (kyc_data : KYCSumbit) (u : User.t) : User.t :=
  {| User.id := User.id u;
     User.email := User.email u;
     User.full_name := Some (kyc_full_name kyc_data);
     User.identity_card_number := Some (kyc_identity_card_number kyc_data);
     User.hashed_password := User.hashed_password u;
     User.status := "active" |}.

Definition submit_kyc_info (s : Session) (user_id : Z) (kyc_data : KYCSumbit)
  : Raises (option User.t) * Session :=
  match get_user_by_id s user_id with
  | None => (Value None, s)
  | Some db_user =>
      let existing_user_by_id_card :=
        get_user_by_identity_card_number s (kyc_identity_card_number kyc_data) in
      let taken :=
        match existing_user_by_id_card with
        | Some other => negb (User.id other =? user_id)
        | None => false
        end in
      if taken
      then (Raise (mkExc "ValueError"
                     "Identity card number is already registered by another user."),
            s)
      else
        let us := update_first (fun u => User.id u =? user_id)
                               (kyc_assign kyc_data) (users (tables s)) in
        (Value (Some (kyc_assign kyc_data db_user)),
         commit (set_users (tables s) us) s)
  end.

Definition status_assign (status : string) (u : User.t) : User.t :=
  {| User.id := User.id u;
     User.email := User.email u;
     User.full_name := User.full_name u;
     User.identity_card_number := User.identity_card_number u;
     User.hashed_password := User.hashed_password u;
     User.status := status |}.

Definition update_user_status (s : Session) (user_id : Z) (status : string)
  : option User.t * Session :=
  match get_user_by_id s user_id with
  | Some db_user =>
      let us := update_first (fun u => User.id u =? user_id)
                             (status_assign status) (users (tables s)) in
      (Some (status_assign status db_user), commit (set_users (tables s) us) s)
  | None => (None, s)
  end.

Definition get_account_by_user_id (s : Session) (user_id : Z)
  : option Account.t :=
  find (fun a => Account.user_id a =? user_id) (accounts (tables s)).

(** [account.balance += amount] *)
Definition balance_add (amount : float) (a : Account.t) : Account.t :=
  {| Account.id := Account.id a;
     Account.balance := PrimFloat.add (Account.balance a) amount;
     Account.user_id := Account.user_id a |}.

Definition update_balance (s : Session) (user_id : Z) (amount : float)
  : option Account.t * Session :=
  match get_account_by_user_id s user_id with
  | Some account =>
      let acs := update_first (fun a => Account.user_id a =? user_id)
                              (balance_add amount) (accounts (tables s)) in
      (Some (balance_add amount account),
       commit (set_accounts (tables s) acs) s)
  | None => (None, s)
  end.

(** The keyword arguments of [create_transaction] come in the order of its
    signature. The primary key is the next row number of a table from which
    nothing is ever deleted; [created_at] is the server default. *)
Definition create_transaction (s : Session)
    (initiator_user_id : Z) (type : string) (amount : float) (status : string)
    (recipient_user_id : option Z)
    (initiator_web3_address recipient_web3_address tx_hash : option string)
    (bank_account_id : option Z)
  : Transaction.t * Session :=
  let db_transaction :=
    {| Transaction.id := Z.of_nat (S (List.length (transactions (tables s))));
       Transaction.initiator_user_id := initiator_user_id;
       Transaction.recipient_user_id := recipient_user_id;
       Transaction.initiator_web3_address := initiator_web3_address;
       Transaction.recipient_web3_address := recipient_web3_address;
       Transaction.bank_account_id := bank_account_id;
       Transaction.type := type;
       Transaction.amount := amount;
       Transaction.tx_hash := tx_hash;
       Transaction.status := status;
       Transaction.created_at := utcnow s;
       Transaction.completed_at :=
         if String.eqb status "completed" then Some (utcnow s) else None |} in
  (db_transaction,
   commit (set_transactions (tables s)
             (transactions (tables s) ++ [db_transaction])) s).

Definition get_bank_accounts_by_user_id (s : Session) (user_id : Z)
  : list BankAccount.t :=
  filter (fun b => BankAccount.user_id b =? user_id) (bank_accounts (tables s)).

Definition get_whitelist_address_by_address (s : Session) (address : string)
  : option WithdrawalWhitelist.t :=
  find (fun w => String.eqb (WithdrawalWhitelist.address w) address)
       (withdrawal_whitelist (tables s)).

(** ** blockchain_service.py *)

(** [BlockchainService._format_to_wei]: [int(amount * (10 ** self.decimals))],
    the product being taken in binary64 after the [int] power is converted;
    [self.decimals] is the [uint8] the token contract answers. *)
Definition _format_to_wei (decimals : N) (amount : float) : Raises Z :=
  match float_of_int (10 ^ Z.of_N decimals) with
  | Value scale => int_of_float (PrimFloat.mul amount scale)
  | Raise e => Raise e
  end.

(** What [transfer_hkdc] hands back to the handler: the receipt of the mined
    transaction, of which the handler reads [transactionHash.hex()], or an
    exception raised anywhere on the way (address checksum, unit conversion,
    gas estimate, send, wait for the receipt). *)
Inductive GatewayOutcome :=
| Receipt (transactionHash_hex : string)
| Raised (e : PyException).

(** ** main.py *)

Record HTTPException := mkHTTP { status_code : Z; detail : string }.

(** What a handler answers: the value it returns, the [HTTPException] it
    raises, or another exception that nothing catches. *)
Inductive Response (A : Type) : Type :=
| Return (body : A)
| HTTPError (e : HTTPException)
| Uncaught (e : PyException).
Arguments Return {A} body.
Arguments HTTPError {A} e.
Arguments Uncaught {A} e.

(** The dictionaries the handlers return. *)
Inductive JSON :=
| JStr (v : string)
| JNum (v : float).

Definition Body := list (string * JSON).

Definition is_active (u : User.t) : bool := String.eqb (User.status u) "active".

Definition submit_kyc (s : Session) (kyc_data : KYCSumbit)
    (current_user : User.t) : Response User.t * Session :=
  if is_active current_user
  then (HTTPError (mkHTTP 400 "User is already active."), s)
  else
    (* liveness_check_passed = True *)
    match submit_kyc_info s (User.id current_user) kyc_data with
    | (Value (Some updated_user), s') => (Return updated_user, s')
    | (Value None, s') => (HTTPError (mkHTTP 404 "User not found."), s')
    | (Raise e, s') =>
        if String.eqb (exc_type e) "ValueError"
        then (HTTPError (mkHTTP 400 (exc_str e)), s')
        else (Uncaught e, s')
    end.

Definition confirm_alipay_deposit (s : Session) (request : DepositBankRequest)
    (current_user : User.t) : Response Body * Session :=
  if negb (is_active current_user)
  then (HTTPError (mkHTTP 403 "User is not active."), s)
  else
    let '(updated_account, s1) :=
      update_balance s (User.id current_user) (deposit_amount request) in
    let '(_, s2) :=
      create_transaction s1 (User.id current_user) "deposit_alipay"
        (deposit_amount request) "completed" None None None None None in
    match updated_account with
    | Some account =>
        (Return [("message", JStr "Alipay deposit successful and credited.");
                 ("new_balance", JNum (Account.balance account))], s2)
    | None =>
        (Uncaught (mkExc "AttributeError"
                     "'NoneType' object has no attribute 'balance'"), s2)
    end.

Definition confirm_web3_deposit (s : Session) (req : DepositBankRequest)
    (user : User.t) : Response Body * Session :=
  let '(_, s1) := update_balance s (User.id user) (deposit_amount req) in
  let '(_, s2) :=
    create_transaction s1 (User.id user) "deposit_web3"
      (deposit_amount req) "completed" None None None None None in
  (Return [("message", JStr "Web3 deposit confirmed")], s2).

(** [not account or account.balance < amount] *)
Definition insufficient (account : option Account.t) (amount : float) : bool :=
  match account with
  | None => true
  | Some a => PrimFloat.ltb (Account.balance a) amount
  end.

Definition internal_transfer (s : Session) (request : TransferRequest)
    (current_user : User.t) : Response Body * Session :=
  if negb (is_active current_user)
  then (HTTPError
          (mkHTTP 403 "Your account is not active. Please complete KYC."), s)
  else
    let sender_account := get_account_by_user_id s (User.id current_user) in
    if insufficient sender_account (transfer_amount request)
    then (HTTPError (mkHTTP 400 "Insufficient balance"), s)
    else if String.eqb (recipient_email request) (User.email current_user)
    then (HTTPError (mkHTTP 400 "Cannot transfer to yourself."), s)
    else
      match get_user_by_email s (recipient_email request) with
      | None =>
          (HTTPError (mkHTTP 404 "Recipient account does not exist."), s)
      | Some recipient_user =>
          if negb (is_active recipient_user)
          then (HTTPError
                  (mkHTTP 403
                     "Recipient account is at risk (not verified). Transfer aborted."),
                s)
          else
            let '(_, s1) :=
              update_balance s (User.id current_user)
                (PrimFloat.opp (transfer_amount request)) in
            let '(_, s2) :=
              update_balance s1 (User.id recipient_user)
                (transfer_amount request) in
            let '(_, s3) :=
              create_transaction s2 (User.id current_user) "internal_transfer"
                (transfer_amount request) "completed"
                (Some (User.id recipient_user)) None None None None in
            (Return [("message", JStr "Transfer successful")], s3)
      end.

Definition withdraw_to_bank (s : Session) (request : WithdrawBankRequest)
    (current_user : User.t) : Response Body * Session :=
  if negb (is_active current_user)
  then (HTTPError (mkHTTP 403 "User is not active. Please complete KYC."), s)
  else
    let account := get_account_by_user_id s (User.id current_user) in
    if insufficient account (withdraw_bank_amount request)
    then (HTTPError (mkHTTP 400 "Insufficient balance"), s)
    else
      let card_ids :=
        map BankAccount.id
            (get_bank_accounts_by_user_id s (User.id current_user)) in
      if negb (existsb (Z.eqb (withdraw_bank_account_id request)) card_ids)
      then (HTTPError
              (mkHTTP 403 "Bank account does not belong to the current user."),
            s)
      else
        let '(_, s1) :=
          update_balance s (User.id current_user)
            (PrimFloat.opp (withdraw_bank_amount request)) in
        let '(_, s2) :=
          create_transaction s1 (User.id current_user) "withdraw_bank"
            (withdraw_bank_amount request) "completed" None None None None
            (Some (withdraw_bank_account_id request)) in
        (Return [("message", JStr "Bank withdrawal initiated successfully.")],
         s2).

(** A handler that calls the blockchain service: either it is done, or it
    stands at the call [transfer_hkdc(recipient_address, amount)], with the
    session as it is at that moment and what it does, from that session on,
    with the outcome. *)
Inductive Step (A : Type) : Type :=
| Done (r : Response A) (s : Session)
| TransferHKDC (recipient_address : string) (amount : float) (s : Session)
    (k : GatewayOutcome -> Session -> Response A * Session).
Arguments Done {A} r s.
Arguments TransferHKDC {A} recipient_address amount s k.

(** The body of the [try] block after the call, and the [except] clause. *)
Definition withdraw_to_web3_settle (request : WithdrawWeb3Request)
    (current_user : User.t) (outcome : GatewayOutcome) (s : Session)
  : Response Body * Session :=
  match outcome with
  | Receipt tx_hash =>
      let '(_, s1) :=
        update_balance s (User.id current_user)
          (PrimFloat.opp (withdraw_amount request)) in
      let '(_, s2) :=
        create_transaction s1 (User.id current_user) "withdraw_web3"
          (withdraw_amount request) "completed" None None
          (Some (recipient_web3_address request)) (Some tx_hash) None in
      (Return [("message", JStr "Web3 withdrawal successful");
               ("tx_hash", JStr tx_hash)], s2)
  | Raised e =>
      let '(_, s1) :=
        create_transaction s (User.id current_user) "withdraw_web3"
          (withdraw_amount request) "failed" None None
          (Some (recipient_web3_address request)) None None in
      (HTTPError
         (mkHTTP 500 ("An unexpected error occurred: " ++ exc_str e)), s1)
  end.

Definition withdraw_to_web3 (s : Session) (request : WithdrawWeb3Request)
    (current_user : User.t) : Step Body :=
  if negb (is_active current_user)
  then Done (HTTPError (mkHTTP 403 "User is not active. KYC is required.")) s
  else
    let account := get_account_by_user_id s (User.id current_user) in
    if insufficient account (withdraw_amount request)
    then Done (HTTPError (mkHTTP 400 "Insufficient balance.")) s
    else
      match get_whitelist_address_by_address s
              (recipient_web3_address request) with
      | None =>
          Done (HTTPError
                  (mkHTTP 403
                     "Withdrawal address is not in the exchange's whitelist. Transaction rejected."))
               s
      | Some whitelisted_address =>
          if String.eqb (WithdrawalWhitelist.status whitelisted_address)
                        "frozen"
          then Done (HTTPError
                       (mkHTTP 403
                          "This withdrawal address is currently frozen. Transaction rejected."))
                    s
          else TransferHKDC (recipient_web3_address request)
                            (withdraw_amount request) s
                            (withdraw_to_web3_settle request current_user)
      end.

(** Running a handler against a blockchain service. *)
Definition run {A : Type} (transfer_hkdc : string -> float -> GatewayOutcome)
    (st : Step A) : Response A * Session :=
  match st with
  | Done r s => (r, s)
  | TransferHKDC recipient_address amount s k =>
      k (transfer_hkdc recipient_address amount) s
  end.

(** Whether a handler reached the blockchain service at all. *)
Definition calls_gateway {A : Type} (st : Step A) : bool :=
  match st with
  | Done _ _ => false
  | TransferHKDC _ _ _ _ => true
  end.

(** The balance a user's account shows in given tables, if the user has an
    account there; and in the session. *)
Definition table_balance (t : Tables) (user_id : Z) : option float :=
  option_map Account.balance
    (find (fun a => Account.user_id a =? user_id) (accounts t)).

Definition balance_of (s : Session) (user_id : Z) : option float :=
  table_balance (tables s) user_id.

(** ** Constraints of the schema *)

(** [id = Column(Integer, primary_key=True)] on users. *)
Definition users_primary_key (us : list User.t) : Prop :=
  forall a b, In a us -> In b us -> User.id a = User.id b -> a = b.

(** [identity_card_number = Column(String, unique=True, nullable=True)]. *)
Definition identity_card_unique (us : list User.t) : Prop :=
  forall a b n, In a us -> In b us ->
    User.identity_card_number a = Some n ->
    User.identity_card_number b = Some n -> a = b.

(** ** Balances change through [update_balance] only *)

(** [s'] shows the accounts that [s] shows after some calls of
    [update_balance] and nothing else touching the accounts table. *)
Inductive only_update_balance : Session -> Session -> Prop :=
| oub_same (s s' : Session) :
    accounts (tables s') = accounts (tables s) -> only_update_balance s s'
| oub_update (s s' : Session) (user_id : Z) (amount : float) :
    only_update_balance (snd (update_balance s user_id amount)) s' ->
    only_update_balance s s'.

(** ** A small exchange *)

Module Example.

Definition alice : User.t :=
  User.mk 1 "alice@example.com" (Some "Alice Chan") (Some "A1234567")
          "$2b$12$alice" "active".

Definition bob : User.t :=
  User.mk 2 "bob@example.com" (Some "Bob Lee") (Some "B7654321")
          "$2b$12$bob" "active".

Definition carol : User.t :=
  User.mk 3 "carol@example.com" None None "$2b$12$carol" "unverified".

(** An active user whose account row was never written (the second commit
    of [create_user] did not happen). *)
Definition dave : User.t :=
  User.mk 4 "dave@example.com" (Some "Dave Wong") (Some "D2468135")
          "$2b$12$dave" "active".

Definition hot_wallet : string :=
  "0x1111111111111111111111111111111111111111".

Definition frozen_wallet : string :=
  "0x2222222222222222222222222222222222222222".

Definition unknown_wallet : string :=
  "0x3333333333333333333333333333333333333333".

Definition start : Session :=
  {| tables :=
       {| users := [alice; bob; carol; dave];
          accounts := [Account.mk 1 100%float 1;
                       Account.mk 2 20%float 2;
                       Account.mk 3 0%float 3];
          transactions := [];
          bank_accounts :=
            [BankAccount.mk 1 "Alice Chan" "HSBC" "6222000011112222" 1];
          withdrawal_whitelist :=
            [WithdrawalWhitelist.mk 1 hot_wallet "Partner exchange" "normal"
               None;
             WithdrawalWhitelist.mk 2 frozen_wallet "Suspended venue"
               "frozen" (Some 900)] |};
     utcnow := 1000;
     commit_log := [] |}.

Definition withdrawal : WithdrawWeb3Request :=
  mkWithdrawWeb3 30%float hot_wallet.

(** Two exceptions of different classes that read the same. *)
Definition rejected : PyException :=
  mkExc "ContractLogicError" "insufficient gas".

Definition timed_out : PyException :=
  mkExc "TimeExhausted" "insufficient gas".

Definition gateway_ok (_ : string) (_ : float) : GatewayOutcome :=
  Receipt "0xabc".

Definition gateway_raises (e : PyException) (_ : string) (_ : float)
  : GatewayOutcome := Raised e.

End Example.

(** ** schemas.py: registration, bank cards, whitelist administration *)

Record UserCreate := mkUserCreate {
  create_email : string;
  create_password : string
}.

Record BankAccountCreate := mkBankAccountCreate {
  create_account_name : string;
  create_bank_name : string;
  create_card_number : string
}.

Record WhitelistAddressCreate := mkWhitelistAddressCreate {
  create_label : string;
  create_address : string
}.

Record WhitelistAddressStatusUpdate := mkStatusUpdate {
  update_status : string
}.

(** ** crud.py: registration, bank cards, whitelist administration *)

Definition set_bank_accounts (t : Tables) (bs : list BankAccount.t) : Tables :=
  {| users := users t; accounts := accounts t;
     transactions := transactions t; bank_accounts := bs;
     withdrawal_whitelist := withdrawal_whitelist t |}.

Definition set_withdrawal_whitelist (t : Tables)
    (ws : list WithdrawalWhitelist.t) : Tables :=
  {| users := users t; accounts := accounts t;
     transactions := transactions t; bank_accounts := bank_accounts t;
     withdrawal_whitelist := ws |}.

(** [create_user]. The hash is what [security.get_password_hash] returned
    for the password (a salted hash, so not a function of the password).
    The user row is committed first, with the column defaults (no name, no
    number, status unverified); the account row, balance [0.0], is committed
    second. Primary keys are the next row numbers. *)
Definition create_user (s : Session) (user : UserCreate)
    (hashed_password : string) : User.t * Session :=
  let db_user :=
    {| User.id := Z.of_nat (S (List.length (users (tables s))));
       User.email := create_email user;
       User.full_name := None;
       User.identity_card_number := None;
       User.hashed_password := hashed_password;
       User.status := "unverified" |} in
  let s1 := commit (set_users (tables s) (users (tables s) ++ [db_user])) s in
  let db_account :=
    {| Account.id := Z.of_nat (S (List.length (accounts (tables s1))));
       Account.balance := 0%float;
       Account.user_id := User.id db_user |} in
  (db_user,
   commit (set_accounts (tables s1) (accounts (tables s1) ++ [db_account]))
          s1).

Definition get_bank_account_by_card_number (s : Session) (card_number : string)
  : option BankAccount.t :=
  find (fun b => String.eqb (BankAccount.card_number b) card_number)
       (bank_accounts (tables s)).

Definition create_bank_account (s : Session) (bank_account : BankAccountCreate)
    (user_id : Z) : BankAccount.t * Session :=
  let db_bank_account :=
    {| BankAccount.id := Z.of_nat (S (List.length (bank_accounts (tables s))));
       BankAccount.account_name := create_account_name bank_account;
       BankAccount.bank_name := create_bank_name bank_account;
       BankAccount.card_number := create_card_number bank_account;
       BankAccount.user_id := user_id |} in
  (db_bank_account,
   commit (set_bank_accounts (tables s)
             (bank_accounts (tables s) ++ [db_bank_account])) s).

Definition get_all_whitelist_addresses (s : Session)
  : list WithdrawalWhitelist.t :=
  withdrawal_whitelist (tables s).

(** [add_to_whitelist]: the row takes the column defaults, status normal
    and no freezing time. *)
Definition add_to_whitelist (s : Session)
    (whitelist_data : WhitelistAddressCreate)
  : WithdrawalWhitelist.t * Session :=
  let db_address :=
    {| WithdrawalWhitelist.id :=
         Z.of_nat (S (List.length (withdrawal_whitelist (tables s))));
       WithdrawalWhitelist.address := create_address whitelist_data;
       WithdrawalWhitelist.label := create_label whitelist_data;
       WithdrawalWhitelist.status := "normal";
       WithdrawalWhitelist.frozen_at := None |} in
  (db_address,
   commit (set_withdrawal_whitelist (tables s)
             (withdrawal_whitelist (tables s) ++ [db_address])) s).

(** The assignments of [update_whitelist_address_status] on the row. *)
Definition whitelist_status_assign (status : string) (now : Z)
    (w : WithdrawalWhitelist.t) : WithdrawalWhitelist.t :=
  {| WithdrawalWhitelist.id := WithdrawalWhitelist.id w;
     WithdrawalWhitelist.address := WithdrawalWhitelist.address w;
     WithdrawalWhitelist.label := WithdrawalWhitelist.label w;
     WithdrawalWhitelist.status := status;
     WithdrawalWhitelist.frozen_at :=
       if String.eqb status "frozen" then Some now else None |}.

Definition update_whitelist_address_status (s : Session) (address_id : Z)
    (status : string) : option WithdrawalWhitelist.t * Session :=
  match find (fun w => WithdrawalWhitelist.id w =? address_id)
             (withdrawal_whitelist (tables s)) with
  | None => (None, s)
  | Some db_address =>
      let ws := update_first (fun w => WithdrawalWhitelist.id w =? address_id)
                             (whitelist_status_assign status (utcnow s))
                             (withdrawal_whitelist (tables s)) in
      (Some (whitelist_status_assign status (utcnow s) db_address),
       commit (set_withdrawal_whitelist (tables s) ws) s)
  end.

(** ** main.py: registration, activation, bank cards, whitelist
    administration *)

Definition register_user (s : Session) (user : UserCreate)
    (hashed_password : string) : Response User.t * Session :=
  match get_user_by_email s (create_email user) with
  | Some _ => (HTTPError (mkHTTP 400 "Email already registered"), s)
  | None =>
      let '(db_user, s') := create_user s user hashed_password in
      (Return db_user, s')
  end.

(** [read_users_me]: the user and [account.balance if account else 0.0]. *)
Definition read_users_me (s : Session) (current_user : User.t)
  : User.t * float :=
  (current_user,
   match get_account_by_user_id s (User.id current_user) with
   | Some account => Account.balance account
   | None => 0%float
   end).

(** [activate_user] returns what [update_user_status] returns, [None] when
    the user row is gone. *)
Definition activate_user (s : Session) (current_user : User.t)
  : Response (option User.t) * Session :=
  if is_active current_user
  then (HTTPError (mkHTTP 400 "User is already active"), s)
  else
    let '(db_user, s') :=
      update_user_status s (User.id current_user) "active" in
    (Return db_user, s').

Definition read_user_bank_accounts (s : Session) (current_user : User.t)
  : list BankAccount.t :=
  get_bank_accounts_by_user_id s (User.id current_user).

Definition add_user_bank_account (s : Session)
    (bank_account : BankAccountCreate) (current_user : User.t)
  : Response BankAccount.t * Session :=
  if negb (is_active current_user)
  then (HTTPError
          (mkHTTP 403 "User is not active. Please complete KYC first."), s)
  else
    match get_bank_account_by_card_number s
            (create_card_number bank_account) with
    | Some _ =>
        (HTTPError (mkHTTP 400 "Bank card number already registered."), s)
    | None =>
        let '(db_bank_account, s') :=
          create_bank_account s bank_account (User.id current_user) in
        (Return db_bank_account, s')
    end.

Definition read_global_whitelist (s : Session) : list WithdrawalWhitelist.t :=
  get_all_whitelist_addresses s.

(** [address.startswith("0x")] and [len(address) != 42]. *)
Definition add_address_to_global_whitelist (s : Session)
    (whitelist_data : WhitelistAddressCreate)
  : Response WithdrawalWhitelist.t * Session :=
  if negb (String.prefix "0x" (create_address whitelist_data))
     || negb (Nat.eqb (String.length (create_address whitelist_data)) 42)
  then (HTTPError (mkHTTP 400 "Invalid Ethereum address format."), s)
  else
    match get_whitelist_address_by_address s
            (create_address whitelist_data) with
    | Some _ => (HTTPError (mkHTTP 400 "Address already in whitelist."), s)
    | None =>
        let '(db_address, s') := add_to_whitelist s whitelist_data in
        (Return db_address, s')
    end.

Definition update_whitelist_status (s : Session) (address_id : Z)
    (status_update : WhitelistAddressStatusUpdate)
  : Response WithdrawalWhitelist.t * Session :=
  if negb (String.eqb (update_status status_update) "normal"
           || String.eqb (update_status status_update) "frozen")
  then (HTTPError
          (mkHTTP 400 "Invalid status. Must be 'normal' or 'frozen'."), s)
  else
    match update_whitelist_address_status s address_id
            (update_status status_update) with
    | (Some updated_address, s') => (Return updated_address, s')
    | (None, s') => (HTTPError (mkHTTP 404 "Whitelist address not found."), s')
    end.

(** ** Unique columns and the shape of the log *)

(** [email = Column(String, unique=True)]. *)
Definition emails_unique (us : list User.t) : Prop :=
  NoDup (map User.email us).

(** The primary key of users, by position: no two rows share an id. *)
Definition user_ids_unique (us : list User.t) : Prop :=
  NoDup (map User.id us).

(** The national-id numbers that are not NULL, one per row that has one. *)
Definition identity_cards (us : list User.t) : list string :=
  flat_map (fun u => match User.identity_card_number u with
                     | Some n => [n]
                     | None => []
                     end) us.

(** [identity_card_number = Column(String, unique=True, nullable=True)],
    by position. *)
Definition identity_cards_distinct (us : list User.t) : Prop :=
  NoDup (identity_cards us).

(** [card_number = Column(String, unique=True)]. *)
Definition card_numbers_unique (bs : list BankAccount.t) : Prop :=
  NoDup (map BankAccount.card_number bs).

(** [address = Column(String, unique=True)] and the primary key of the
    whitelist. *)
Definition addresses_unique (ws : list WithdrawalWhitelist.t) : Prop :=
  NoDup (map WithdrawalWhitelist.address ws).

Definition whitelist_ids_unique (ws : list WithdrawalWhitelist.t) : Prop :=
  NoDup (map WithdrawalWhitelist.id ws).

(** A row of the log has a completion time exactly when its status is
    completed. *)
Definition completion_matches_status (t : Transaction.t) : Prop :=
  Transaction.completed_at t <> None <-> Transaction.status t = "completed".

(** From [s] to [s'] the log kept every row in place and gained at most one
    row, at the end, whose completion time matches its status. *)
Definition log_grows (s s' : Session) : Prop :=
  exists added,
    transactions (tables s') = (transactions (tables s) ++ added)%list
    /\ (List.length added <= 1)%nat
    /\ Forall completion_matches_status added.

(** A second desk: a whitelist entry to administer and a card to add. *)
Module Desk.

Definition new_wallet : string :=
  "0x4444444444444444444444444444444444444444".

Definition erin : UserCreate :=
  mkUserCreate "erin@example.com" "correct horse".

Definition card : BankAccountCreate :=
  mkBankAccountCreate "Bob Lee" "Hang Seng" "6222000033334444".

End Desk.

(** * Properties *)

(** ** Rows of a table *)

Section Rows.
Context {A : Type}.
Variables (p : A -> bool) (f : A -> A).

(** The rewritten row is found again where it was. *)
Lemma find_update_first_same (l : list A) :
  (forall x, p x = true -> p (f x) = true) ->
  find p (update_first p f l) = option_map f (find p l).
Proof.
  intros Hkeep. induction l as [|x rest IH]; simpl; [reflexivity|].
  destruct (p x) eqn:Hx; simpl.
  - now rewrite (Hkeep x Hx).
  - now rewrite Hx.
Qed.

(** A query that selects none of the rows [p] selects, and does not look
    at what [f] changes, answers as before. *)
Lemma find_update_first_frame (q : A -> bool) (l : list A) :
  (forall x, q (f x) = q x) ->
  (forall x, p x = true -> q x = false) ->
  find q (update_first p f l) = find q l.
Proof.
  intros Hblind Hapart. induction l as [|x rest IH]; simpl; [reflexivity|].
  destruct (p x) eqn:Hx; simpl.
  - now rewrite Hblind, (Hapart x Hx).
  - now rewrite IH.
Qed.

Lemma update_first_none (l : list A) :
  find p l = None -> update_first p f l = l.
Proof.
  induction l as [|x rest IH]; simpl; [reflexivity|].
  destruct (p x); [discriminate|]. intros H. now rewrite IH.
Qed.
End Rows.

(** ** crud.py *)

Lemma update_balance_found (s : Session) (user_id : Z) (amount : float)
    (account : Account.t) :
  get_account_by_user_id s user_id = Some account ->
  update_balance s user_id amount =
    (Some (balance_add amount account),
     commit (set_accounts (tables s)
               (update_first (fun a => Account.user_id a =? user_id)
                  (balance_add amount) (accounts (tables s)))) s).
Proof. intros H. unfold update_balance. now rewrite H. Qed.

Lemma update_balance_missing (s : Session) (user_id : Z) (amount : float) :
  get_account_by_user_id s user_id = None ->
  update_balance s user_id amount = (None, s).
Proof. intros H. unfold update_balance. now rewrite H. Qed.

(** After [update_balance] the user's account shows the sum. *)
Lemma balance_of_update_balance (s : Session) (user_id : Z) (amount : float)
    (account : Account.t) :
  get_account_by_user_id s user_id = Some account ->
  balance_of (snd (update_balance s user_id amount)) user_id =
    Some (PrimFloat.add (Account.balance account) amount).
Proof.
  intros H. rewrite (update_balance_found _ _ _ _ H). simpl.
  unfold balance_of, table_balance. simpl.
  rewrite find_update_first_same by (intros x Hx; exact Hx).
  unfold get_account_by_user_id in H. now rewrite H.
Qed.

(** The accounts of the other users show what they showed. *)
Lemma balance_of_update_balance_other (s : Session) (user_id other : Z)
    (amount : float) :
  other <> user_id ->
  get_account_by_user_id (snd (update_balance s user_id amount)) other =
    get_account_by_user_id s other.
Proof.
  intros Hne. unfold update_balance.
  destruct (get_account_by_user_id s user_id); [|reflexivity].
  unfold get_account_by_user_id. simpl.
  apply find_update_first_frame.
  - reflexivity.
  - intros x Hx. apply Z.eqb_eq in Hx. apply Z.eqb_neq. congruence.
Qed.

(** [update_balance] writes to the accounts table only. *)
Lemma update_balance_frame (s : Session) (user_id : Z) (amount : float) :
  let s' := snd (update_balance s user_id amount) in
  users (tables s') = users (tables s)
  /\ transactions (tables s') = transactions (tables s)
  /\ bank_accounts (tables s') = bank_accounts (tables s)
  /\ withdrawal_whitelist (tables s') = withdrawal_whitelist (tables s)
  /\ utcnow s' = utcnow s.
Proof.
  unfold update_balance.
  destruct (get_account_by_user_id s user_id); simpl; auto.
Qed.

(** [create_transaction] appends one row and writes nothing else. *)
Lemma create_transaction_frame (s : Session) (initiator : Z)
    (type : string) (amount : float) (status : string) (recipient : option Z)
    (from_address to_address tx_hash : option string) (bank : option Z) :
  let r := create_transaction s initiator type amount status recipient
             from_address to_address tx_hash bank in
  transactions (tables (snd r)) = (transactions (tables s) ++ [fst r])%list
  /\ accounts (tables (snd r)) = accounts (tables s)
  /\ users (tables (snd r)) = users (tables s)
  /\ commit_log (snd r) = tables (snd r) :: commit_log s.
Proof. simpl. auto. Qed.

(** ** C4 *)

(** C4, as the code has it: [update_balance] never rejects. Whatever the
    delta, also one below the negated balance, it returns the account with the
    binary64 sum [balance + delta], makes that state durable, and leaves the
    accounts of all other users and all other tables as they were; a user
    without an account is skipped without effect. Every handler that moves
    value changes the accounts table through [update_balance] only, and the
    debiting handlers refuse beforehand when [balance < amount]. *)
Theorem update_balance_applies_any_delta :
  (forall s user_id delta account,
      get_account_by_user_id s user_id = Some account ->
      let r := update_balance s user_id delta in
      fst r = Some (balance_add delta account)
      /\ balance_of (snd r) user_id =
           Some (PrimFloat.add (Account.balance account) delta)
      /\ (forall other, other <> user_id ->
            get_account_by_user_id (snd r) other =
              get_account_by_user_id s other)
      /\ users (tables (snd r)) = users (tables s)
      /\ transactions (tables (snd r)) = transactions (tables s)
      /\ commit_log (snd r) = tables (snd r) :: commit_log s)
  /\ (forall s user_id delta,
         get_account_by_user_id s user_id = None ->
         update_balance s user_id delta = (None, s))
  /\ (forall s request user,
         only_update_balance s (snd (confirm_alipay_deposit s request user)))
  /\ (forall s request user,
         only_update_balance s (snd (confirm_web3_deposit s request user)))
  /\ (forall s request user,
         only_update_balance s (snd (internal_transfer s request user)))
  /\ (forall s request user,
         only_update_balance s (snd (withdraw_to_bank s request user)))
  /\ (forall gateway s request user,
         only_update_balance s
           (snd (run gateway (withdraw_to_web3 s request user))))
  /\ (forall s request user,
         insufficient (get_account_by_user_id s (User.id user))
           (transfer_amount request) = true ->
         exists e, internal_transfer s request user = (HTTPError e, s))
  /\ (forall s request user,
         insufficient (get_account_by_user_id s (User.id user))
           (withdraw_bank_amount request) = true ->
         exists e, withdraw_to_bank s request user = (HTTPError e, s))
  /\ (forall gateway s request user,
         insufficient (get_account_by_user_id s (User.id user))
           (withdraw_amount request) = true ->
         exists e,
           run gateway (withdraw_to_web3 s request user) = (HTTPError e, s)).
Proof.
  repeat split.
  - rewrite (update_balance_found _ _ _ _ H). reflexivity.
  - now apply balance_of_update_balance.
  - intros other Hne. now apply balance_of_update_balance_other.
  - apply update_balance_frame.
  - apply update_balance_frame.
  - rewrite (update_balance_found _ _ _ _ H). reflexivity.
  - intros. now apply update_balance_missing.
  - intros. unfold confirm_alipay_deposit.
    destruct (negb (is_active user)); [now apply oub_same|].
    destruct (update_balance s (User.id user) (deposit_amount request))
      as [acc s1] eqn:E.
    apply oub_update with (user_id := User.id user)
                          (amount := deposit_amount request).
    rewrite E. destruct acc; apply oub_same; reflexivity.
  - intros. unfold confirm_web3_deposit.
    destruct (update_balance s (User.id user) (deposit_amount request))
      as [acc s1] eqn:E.
    apply oub_update with (user_id := User.id user)
                          (amount := deposit_amount request).
    rewrite E. apply oub_same; reflexivity.
  - intros. unfold internal_transfer.
    destruct (negb (is_active user)); [now apply oub_same|].
    destruct (insufficient _ _); [now apply oub_same|].
    destruct (String.eqb _ _); [now apply oub_same|].
    destruct (get_user_by_email s (recipient_email request)) as [rcp|];
      [|now apply oub_same].
    destruct (negb (is_active rcp)); [now apply oub_same|].
    destruct (update_balance s (User.id user) _) as [a1 s1] eqn:E1.
    destruct (update_balance s1 (User.id rcp) _) as [a2 s2] eqn:E2.
    eapply oub_update. rewrite E1. simpl.
    eapply oub_update. rewrite E2. simpl.
    apply oub_same. reflexivity.
  - intros. unfold withdraw_to_bank.
    destruct (negb (is_active user)); [now apply oub_same|].
    destruct (insufficient _ _); [now apply oub_same|].
    destruct (negb (existsb _ _)); [now apply oub_same|].
    destruct (update_balance s (User.id user) _) as [a1 s1] eqn:E1.
    eapply oub_update. rewrite E1. simpl.
    apply oub_same. reflexivity.
  - intros. unfold withdraw_to_web3.
    destruct (negb (is_active user)); [now apply oub_same|].
    destruct (insufficient _ _); [now apply oub_same|].
    destruct (get_whitelist_address_by_address s _) as [w|];
      [|now apply oub_same].
    destruct (String.eqb _ _); [now apply oub_same|].
    simpl. destruct (gateway _ _) as [h|e]; simpl.
    + destruct (update_balance s (User.id user) _) as [a1 s1] eqn:E1.
      eapply oub_update. rewrite E1. simpl.
      apply oub_same. reflexivity.
    + apply oub_same. reflexivity.
  - intros s request user H. unfold internal_transfer.
    destruct (negb (is_active user)); [eauto|]. rewrite H. eauto.
  - intros s request user H. unfold withdraw_to_bank.
    destruct (negb (is_active user)); [eauto|]. rewrite H. eauto.
  - intros gateway s request user H. unfold withdraw_to_web3.
    destruct (negb (is_active user)); [simpl; eauto|]. rewrite H.
    simpl. eauto.
Qed.

(** The theorem at work on the small exchange: a credit of 5 on Bob's 20,
    and a transfer of 500 from Alice's 100 refused. *)
Lemma update_balance_applies_any_delta_witness :
  balance_of (snd (update_balance Example.start 2 5%float)) 2 = Some 25%float
  /\ exists e,
       internal_transfer Example.start (mkTransfer "bob@example.com" 500%float)
         Example.alice = (HTTPError e, Example.start).
Proof.
  destruct update_balance_applies_any_delta
    as (Hfound & _ & _ & _ & _ & _ & _ & Htransfer & _).
  split.
  - destruct (Hfound Example.start 2 5%float (Account.mk 2 20%float 2) eq_refl)
      as (_ & Hsum & _).
    exact Hsum.
  - apply Htransfer. reflexivity.
Defined.

(** C4 as it is written fails: on Alice's balance of 100 a delta of -250 is
    not rejected; the stored balance becomes -150. *)
Lemma update_balance_goes_negative :
  let r := update_balance Example.start 1 (-250)%float in
  exists account,
    fst r = Some account
    /\ Account.balance account = (-150)%float
    /\ PrimFloat.ltb (Account.balance account) 0%float = true
    /\ balance_of (snd r) 1 = Some (-150)%float.
Proof.
  eexists. repeat split; vm_compute; reflexivity.
Qed.

(** ** Withdrawal to a chain address *)

(** With an active user, a sufficient balance and a whitelisted address that
    is not frozen, the handler reaches the blockchain service, and the
    session standing at the call is the one the request came with. *)
Lemma withdraw_to_web3_reaches_gateway (s : Session)
    (request : WithdrawWeb3Request) (current_user : User.t)
    (account : Account.t) (entry : WithdrawalWhitelist.t) :
  is_active current_user = true ->
  get_account_by_user_id s (User.id current_user) = Some account ->
  PrimFloat.ltb (Account.balance account) (withdraw_amount request) = false ->
  get_whitelist_address_by_address s (recipient_web3_address request)
    = Some entry ->
  String.eqb (WithdrawalWhitelist.status entry) "frozen" = false ->
  withdraw_to_web3 s request current_user =
    TransferHKDC (recipient_web3_address request) (withdraw_amount request) s
      (withdraw_to_web3_settle request current_user).
Proof.
  intros Hact Hacc Hbal Hwl Hst. unfold withdraw_to_web3.
  rewrite Hact, Hacc. simpl. rewrite Hbal, Hwl, Hst. reflexivity.
Qed.

(** What the [except] clause does, whatever was raised. *)
Lemma withdraw_to_web3_settle_raised (request : WithdrawWeb3Request)
    (current_user : User.t) (e : PyException) (s : Session) :
  let r := withdraw_to_web3_settle request current_user (Raised e) s in
  fst r = HTTPError
            (mkHTTP 500 ("An unexpected error occurred: " ++ exc_str e))
  /\ accounts (tables (snd r)) = accounts (tables s)
  /\ users (tables (snd r)) = users (tables s)
  /\ transactions (tables (snd r)) =
       (transactions (tables s) ++
        [Transaction.mk
           (Z.of_nat (S (List.length (transactions (tables s)))))
           (User.id current_user) None None
           (Some (recipient_web3_address request)) None "withdraw_web3"
           (withdraw_amount request) None "failed" (utcnow s) None])%list.
Proof. simpl. auto. Qed.

(** C1. An active user with a sufficient balance withdraws to a whitelisted
    address of status normal, and the blockchain service returns a receipt
    with a transaction hash. Then: the call to the service is made from the
    untouched session (no debit before it); afterwards the user's balance is
    the binary64 difference [balance + (-amount)], the transaction log has
    exactly one more row, of type withdraw_web3, status completed, the
    requested amount, that hash and the address; and had the service raised
    instead, the balance would have stayed. *)
Theorem withdraw_to_web3_success
    (transfer_hkdc : string -> float -> GatewayOutcome) (s : Session)
    (request : WithdrawWeb3Request) (current_user : User.t)
    (account : Account.t) (entry : WithdrawalWhitelist.t) (tx_hash : string) :
  is_active current_user = true ->
  get_account_by_user_id s (User.id current_user) = Some account ->
  PrimFloat.ltb (Account.balance account) (withdraw_amount request) = false ->
  get_whitelist_address_by_address s (recipient_web3_address request)
    = Some entry ->
  WithdrawalWhitelist.status entry = "normal" ->
  transfer_hkdc (recipient_web3_address request) (withdraw_amount request)
    = Receipt tx_hash ->
  let st := withdraw_to_web3 s request current_user in
  let r := run transfer_hkdc st in
  st = TransferHKDC (recipient_web3_address request) (withdraw_amount request)
         s (withdraw_to_web3_settle request current_user)
  /\ fst r = Return [("message", JStr "Web3 withdrawal successful");
                     ("tx_hash", JStr tx_hash)]
  /\ balance_of (snd r) (User.id current_user) =
       Some (PrimFloat.add (Account.balance account)
                           (PrimFloat.opp (withdraw_amount request)))
  /\ (forall other, other <> User.id current_user ->
        get_account_by_user_id (snd r) other = get_account_by_user_id s other)
  /\ transactions (tables (snd r)) =
       (transactions (tables s) ++
        [Transaction.mk
           (Z.of_nat (S (List.length (transactions (tables s)))))
           (User.id current_user) None None
           (Some (recipient_web3_address request)) None "withdraw_web3"
           (withdraw_amount request) (Some tx_hash) "completed" (utcnow s)
           (Some (utcnow s))])%list
  /\ (forall e,
        balance_of
          (snd (withdraw_to_web3_settle request current_user (Raised e) s))
          (User.id current_user) = Some (Account.balance account)).
Proof.
  intros Hact Hacc Hbal Hwl Hst Hgw st r.
  assert (Hstep : st = TransferHKDC (recipient_web3_address request)
                         (withdraw_amount request) s
                         (withdraw_to_web3_settle request current_user)).
  { apply withdraw_to_web3_reaches_gateway with account entry; auto.
    rewrite Hst. reflexivity. }
  split; [exact Hstep|].
  assert (Hr : r = withdraw_to_web3_settle request current_user
                     (Receipt tx_hash) s).
  { unfold r. rewrite Hstep. unfold run. now rewrite Hgw. }
  rewrite Hr. unfold withdraw_to_web3_settle.
  pose proof (balance_of_update_balance s (User.id current_user)
                (PrimFloat.opp (withdraw_amount request)) account Hacc) as Hb.
  pose proof (fun other =>
                balance_of_update_balance_other s (User.id current_user) other
                  (PrimFloat.opp (withdraw_amount request))) as Ho.
  pose proof (update_balance_frame s (User.id current_user)
                (PrimFloat.opp (withdraw_amount request)))
    as (_ & Htx & _ & _ & Hnow).
  destruct (update_balance s (User.id current_user)
              (PrimFloat.opp (withdraw_amount request))) as [a1 s1].
  simpl in *. repeat split.
  - exact Hb.
  - intros other Hne. exact (Ho other Hne).
  - now rewrite Htx, Hnow.
  - intros e. unfold balance_of, table_balance. simpl.
    unfold get_account_by_user_id in Hacc. now rewrite Hacc.
Qed.

(** C1 on the scenario of the specification: Alice holds 100, withdraws 30
    to the whitelisted wallet, the service answers with hash 0xabc; she is
    left with 70 and one completed withdraw_web3 row carrying 0xabc. *)
Lemma withdraw_to_web3_success_witness :
  let r := run Example.gateway_ok
             (withdraw_to_web3 Example.start Example.withdrawal Example.alice)
  in
  balance_of (snd r) 1 = Some 70%float
  /\ transactions (tables (snd r)) =
       [Transaction.mk 1 1 None None (Some Example.hot_wallet) None
          "withdraw_web3" 30%float (Some "0xabc") "completed" 1000
          (Some 1000)].
Proof.
  destruct (withdraw_to_web3_success Example.gateway_ok Example.start
              Example.withdrawal Example.alice (Account.mk 1 100%float 1)
              (WithdrawalWhitelist.mk 1 Example.hot_wallet "Partner exchange"
                 "normal" None) "0xabc"
              eq_refl eq_refl eq_refl eq_refl eq_refl eq_refl)
    as (_ & _ & Hbal & _ & Htx & _).
  split; [exact Hbal | exact Htx].
Defined.

(** C2. Past the checks of status, balance and whitelist, when the
    blockchain service raises (the transfer is rejected), the log has exactly
    one more row, of type withdraw_web3, status failed, without hash and
    without completion time; the caller gets the reason, inside the detail of
    an HTTP 500; and the accounts table, hence every balance, is as before. *)
Theorem withdraw_to_web3_rejected
    (transfer_hkdc : string -> float -> GatewayOutcome) (s : Session)
    (request : WithdrawWeb3Request) (current_user : User.t)
    (account : Account.t) (entry : WithdrawalWhitelist.t) (e : PyException) :
  is_active current_user = true ->
  get_account_by_user_id s (User.id current_user) = Some account ->
  PrimFloat.ltb (Account.balance account) (withdraw_amount request) = false ->
  get_whitelist_address_by_address s (recipient_web3_address request)
    = Some entry ->
  WithdrawalWhitelist.status entry = "normal" ->
  transfer_hkdc (recipient_web3_address request) (withdraw_amount request)
    = Raised e ->
  let r := run transfer_hkdc (withdraw_to_web3 s request current_user) in
  fst r = HTTPError
            (mkHTTP 500 ("An unexpected error occurred: " ++ exc_str e))
  /\ transactions (tables (snd r)) =
       (transactions (tables s) ++
        [Transaction.mk
           (Z.of_nat (S (List.length (transactions (tables s)))))
           (User.id current_user) None None
           (Some (recipient_web3_address request)) None "withdraw_web3"
           (withdraw_amount request) None "failed" (utcnow s) None])%list
  /\ accounts (tables (snd r)) = accounts (tables s)
  /\ balance_of (snd r) (User.id current_user)
       = Some (Account.balance account).
Proof.
  intros Hact Hacc Hbal Hwl Hst Hgw r. unfold r.
  rewrite (withdraw_to_web3_reaches_gateway s request current_user account
             entry Hact Hacc Hbal Hwl) by (rewrite Hst; reflexivity).
  simpl run. rewrite Hgw.
  destruct (withdraw_to_web3_settle_raised request current_user e s)
    as (Hresp & Haccs & _ & Htx).
  repeat split; auto.
  unfold balance_of, table_balance. rewrite Haccs.
  unfold get_account_by_user_id in Hacc. now rewrite Hacc.
Qed.

(** C2 on the scenario of the specification: the service rejects with
    'insufficient gas'; Alice still holds 100 and one failed row is logged. *)
Lemma withdraw_to_web3_rejected_witness :
  let r := run (Example.gateway_raises Example.rejected)
             (withdraw_to_web3 Example.start Example.withdrawal Example.alice)
  in
  fst r = HTTPError
            (mkHTTP 500 "An unexpected error occurred: insufficient gas")
  /\ balance_of (snd r) 1 = Some 100%float
  /\ transactions (tables (snd r)) =
       [Transaction.mk 1 1 None None (Some Example.hot_wallet) None
          "withdraw_web3" 30%float None "failed" 1000 None].
Proof.
  destruct (withdraw_to_web3_rejected
              (Example.gateway_raises Example.rejected) Example.start
              Example.withdrawal Example.alice (Account.mk 1 100%float 1)
              (WithdrawalWhitelist.mk 1 Example.hot_wallet "Partner exchange"
                 "normal" None) Example.rejected
              eq_refl eq_refl eq_refl eq_refl eq_refl eq_refl)
    as (Hresp & Htx & _ & Hbal).
  split; [exact Hresp | split; [exact Hbal | exact Htx]].
Defined.

(** C3, as the code has it: one [except Exception] clause serves every
    failure of the blockchain service. Past the checks, whatever is raised
    (a rejection as well as a timeout), the handler logs the same failed
    withdraw_web3 row, leaves the accounts table alone and raises HTTP 500
    whose detail is the fixed text followed by [str(e)]; the class of the
    exception plays no part, so two exceptions that read the same are
    answered identically. *)
Theorem withdraw_to_web3_any_exception_alike (s : Session)
    (request : WithdrawWeb3Request) (current_user : User.t)
    (account : Account.t) (entry : WithdrawalWhitelist.t)
    (e1 e2 : PyException) :
  is_active current_user = true ->
  get_account_by_user_id s (User.id current_user) = Some account ->
  PrimFloat.ltb (Account.balance account) (withdraw_amount request) = false ->
  get_whitelist_address_by_address s (recipient_web3_address request)
    = Some entry ->
  WithdrawalWhitelist.status entry = "normal" ->
  let r1 := run (fun _ _ => Raised e1)
              (withdraw_to_web3 s request current_user) in
  let r2 := run (fun _ _ => Raised e2)
              (withdraw_to_web3 s request current_user) in
  snd r1 = snd r2
  /\ accounts (tables (snd r2)) = accounts (tables s)
  /\ transactions (tables (snd r2)) =
       (transactions (tables s) ++
        [Transaction.mk
           (Z.of_nat (S (List.length (transactions (tables s)))))
           (User.id current_user) None None
           (Some (recipient_web3_address request)) None "withdraw_web3"
           (withdraw_amount request) None "failed" (utcnow s) None])%list
  /\ fst r1 = HTTPError
                (mkHTTP 500 ("An unexpected error occurred: " ++ exc_str e1))
  /\ fst r2 = HTTPError
                (mkHTTP 500 ("An unexpected error occurred: " ++ exc_str e2))
  /\ (exc_str e1 = exc_str e2 -> r1 = r2).
Proof.
  intros Hact Hacc Hbal Hwl Hst r1 r2. unfold r1, r2.
  rewrite (withdraw_to_web3_reaches_gateway s request current_user account
             entry Hact Hacc Hbal Hwl) by (rewrite Hst; reflexivity).
  simpl. repeat split; auto.
  intros Heq. now rewrite Heq.
Qed.

(** C3 on the small exchange: a rejection and a timeout. *)
Lemma withdraw_to_web3_any_exception_alike_witness :
  run (fun _ _ => Raised Example.rejected)
      (withdraw_to_web3 Example.start Example.withdrawal Example.alice)
  = run (fun _ _ => Raised Example.timed_out)
        (withdraw_to_web3 Example.start Example.withdrawal Example.alice).
Proof.
  destruct (withdraw_to_web3_any_exception_alike Example.start
              Example.withdrawal Example.alice (Account.mk 1 100%float 1)
              (WithdrawalWhitelist.mk 1 Example.hot_wallet "Partner exchange"
                 "normal" None) Example.rejected Example.timed_out
              eq_refl eq_refl eq_refl eq_refl eq_refl)
    as (_ & _ & _ & _ & _ & Hsame).
  exact (Hsame eq_refl).
Defined.

(** C3 as it is written fails: a [ContractLogicError] (the network refused)
    and a [TimeExhausted] (no receipt in time) are two different outcomes of
    the service, and the handler surfaces one and the same condition and
    leaves one and the same session for both. *)
Lemma withdraw_to_web3_timeout_not_distinguished :
  exc_type Example.rejected <> exc_type Example.timed_out
  /\ run (Example.gateway_raises Example.rejected)
         (withdraw_to_web3 Example.start Example.withdrawal Example.alice)
     = run (Example.gateway_raises Example.timed_out)
           (withdraw_to_web3 Example.start Example.withdrawal Example.alice)
  /\ fst (run (Example.gateway_raises Example.timed_out)
            (withdraw_to_web3 Example.start Example.withdrawal Example.alice))
     = HTTPError
         (mkHTTP 500 "An unexpected error occurred: insufficient gas").
Proof.
  split; [discriminate|]. split; vm_compute; reflexivity.
Qed.

(** C6. For an active user with a sufficient balance: an address absent
    from the whitelist is refused with HTTP 403 and the not-in-whitelist
    detail, an address present with status frozen is refused with HTTP 403 and
    the frozen detail, and the two details differ. In both cases the handler
    is done without having reached the blockchain service, and the session,
    hence the balance, is the one the request came with, whatever service
    it would have run against. *)
Theorem withdraw_to_web3_whitelist_gate (s : Session)
    (request : WithdrawWeb3Request) (current_user : User.t)
    (account : Account.t) :
  is_active current_user = true ->
  get_account_by_user_id s (User.id current_user) = Some account ->
  PrimFloat.ltb (Account.balance account) (withdraw_amount request) = false ->
  let not_whitelisted :=
    mkHTTP 403
      "Withdrawal address is not in the exchange's whitelist. Transaction rejected."
  in
  let frozen :=
    mkHTTP 403
      "This withdrawal address is currently frozen. Transaction rejected." in
  (get_whitelist_address_by_address s (recipient_web3_address request) = None ->
   withdraw_to_web3 s request current_user = Done (HTTPError not_whitelisted) s
   /\ calls_gateway (withdraw_to_web3 s request current_user) = false
   /\ forall gateway,
        run gateway (withdraw_to_web3 s request current_user)
          = (HTTPError not_whitelisted, s))
  /\ (forall entry,
        get_whitelist_address_by_address s (recipient_web3_address request)
          = Some entry ->
        WithdrawalWhitelist.status entry = "frozen" ->
        withdraw_to_web3 s request current_user = Done (HTTPError frozen) s
        /\ calls_gateway (withdraw_to_web3 s request current_user) = false
        /\ forall gateway,
             run gateway (withdraw_to_web3 s request current_user)
               = (HTTPError frozen, s))
  /\ detail not_whitelisted <> detail frozen.
Proof.
  intros Hact Hacc Hbal not_whitelisted frozen.
  unfold withdraw_to_web3. rewrite Hact, Hacc.
  cbn [negb insufficient]. rewrite Hbal. fold not_whitelisted frozen.
  split; [|split].
  - intros Hnone. rewrite Hnone. auto.
  - intros entry Hsome Hfrozen. rewrite Hsome, Hfrozen. auto.
  - discriminate.
Qed.

(** C6 on the small exchange: Alice asks for 30 to a wallet nobody listed,
    then to the frozen wallet. *)
Lemma withdraw_to_web3_whitelist_gate_witness :
  run Example.gateway_ok
    (withdraw_to_web3 Example.start
       (mkWithdrawWeb3 30%float Example.unknown_wallet) Example.alice)
  = (HTTPError
       (mkHTTP 403
          "Withdrawal address is not in the exchange's whitelist. Transaction rejected."),
     Example.start)
  /\ run Example.gateway_ok
       (withdraw_to_web3 Example.start
          (mkWithdrawWeb3 30%float Example.frozen_wallet) Example.alice)
     = (HTTPError
          (mkHTTP 403
             "This withdrawal address is currently frozen. Transaction rejected."),
        Example.start).
Proof.
  split.
  - destruct (withdraw_to_web3_whitelist_gate Example.start
                (mkWithdrawWeb3 30%float Example.unknown_wallet) Example.alice
                (Account.mk 1 100%float 1) eq_refl eq_refl eq_refl)
      as (Habsent & _ & _).
    destruct (Habsent eq_refl) as (_ & _ & Hrun).
    exact (Hrun Example.gateway_ok).
  - destruct (withdraw_to_web3_whitelist_gate Example.start
                (mkWithdrawWeb3 30%float Example.frozen_wallet) Example.alice
                (Account.mk 1 100%float 1) eq_refl eq_refl eq_refl)
      as (_ & Hfrozen & _).
    destruct (Hfrozen
                (WithdrawalWhitelist.mk 2 Example.frozen_wallet
                   "Suspended venue" "frozen" (Some 900)) eq_refl eq_refl)
      as (_ & _ & Hrun).
    exact (Hrun Example.gateway_ok).
Defined.

(** ** Internal transfer *)

Lemma update_balance_commits (s : Session) (user_id : Z) (amount : float)
    (account : Account.t) :
  get_account_by_user_id s user_id = Some account ->
  commit_log (snd (update_balance s user_id amount)) =
    tables (snd (update_balance s user_id amount)) :: commit_log s.
Proof. intros H. now rewrite (update_balance_found _ _ _ _ H). Qed.

(** A user found by email carries that email and is a row of the table. *)
Lemma get_user_by_email_some (s : Session) (email : string) (u : User.t) :
  get_user_by_email s email = Some u ->
  In u (users (tables s)) /\ User.email u = email.
Proof.
  intros H. apply find_some in H. destruct H as [Hin Heq].
  split; [exact Hin|]. now apply String.eqb_eq.
Qed.

(** The recipient the handler accepts is another user than the sender. *)
Lemma recipient_is_another_user (s : Session) (request : TransferRequest)
    (current_user recipient_user : User.t) :
  users_primary_key (users (tables s)) ->
  get_user_by_email s (User.email current_user) = Some current_user ->
  get_user_by_email s (recipient_email request) = Some recipient_user ->
  String.eqb (recipient_email request) (User.email current_user) = false ->
  User.id recipient_user <> User.id current_user.
Proof.
  intros Hpk Hcur Hrcp Hne Hid.
  apply get_user_by_email_some in Hcur. destruct Hcur as [Hin1 _].
  apply get_user_by_email_some in Hrcp. destruct Hrcp as [Hin2 Hmail].
  apply String.eqb_neq in Hne. apply Hne.
  rewrite <- Hmail. now rewrite (Hpk _ _ Hin2 Hin1 Hid).
Qed.

(** The handler either returns or raises an [HTTPException]; when all five
    checks pass it is the three writes in a row. *)
Lemma internal_transfer_passes (s : Session) (request : TransferRequest)
    (current_user recipient_user : User.t) :
  is_active current_user = true ->
  insufficient (get_account_by_user_id s (User.id current_user))
    (transfer_amount request) = false ->
  String.eqb (recipient_email request) (User.email current_user) = false ->
  get_user_by_email s (recipient_email request) = Some recipient_user ->
  is_active recipient_user = true ->
  let s1 := snd (update_balance s (User.id current_user)
                   (PrimFloat.opp (transfer_amount request))) in
  let s2 := snd (update_balance s1 (User.id recipient_user)
                   (transfer_amount request)) in
  internal_transfer s request current_user =
    (Return [("message", JStr "Transfer successful")],
     snd (create_transaction s2 (User.id current_user) "internal_transfer"
            (transfer_amount request) "completed"
            (Some (User.id recipient_user)) None None None None)).
Proof.
  intros Hact Hbal Hself Hrcp Hract s1 s2. unfold internal_transfer.
  rewrite Hact, Hbal, Hself, Hrcp, Hract. cbn [negb].
  unfold s2, s1.
  destruct (update_balance s (User.id current_user)
              (PrimFloat.opp (transfer_amount request))) as [a1 t1].
  cbn [snd].
  destruct (update_balance t1 (User.id recipient_user)
              (transfer_amount request)) as [a2 t2].
  reflexivity.
Qed.

(** A returning call went through all five checks. *)
Lemma internal_transfer_returns (s s' : Session) (request : TransferRequest)
    (current_user : User.t) (body : Body) :
  internal_transfer s request current_user = (Return body, s') ->
  is_active current_user = true
  /\ insufficient (get_account_by_user_id s (User.id current_user))
       (transfer_amount request) = false
  /\ String.eqb (recipient_email request) (User.email current_user) = false
  /\ exists recipient_user,
       get_user_by_email s (recipient_email request) = Some recipient_user
       /\ is_active recipient_user = true.
Proof.
  unfold internal_transfer.
  destruct (is_active current_user); cbn [negb]; [|discriminate].
  destruct (insufficient _ _); [discriminate|].
  destruct (String.eqb _ _); [discriminate|].
  destruct (get_user_by_email s (recipient_email request)) as [rcp|];
    [|discriminate].
  destruct (is_active rcp) eqn:Hr; cbn [negb]; [|discriminate].
  intros _. repeat split; eauto.
Qed.

(** A raising call wrote nothing. *)
Lemma internal_transfer_raises (s s' : Session) (request : TransferRequest)
    (current_user : User.t) (e : HTTPException) :
  internal_transfer s request current_user = (HTTPError e, s') -> s' = s.
Proof.
  unfold internal_transfer.
  destruct (negb (is_active current_user)); [congruence|].
  destruct (insufficient _ _); [congruence|].
  destruct (String.eqb _ _); [congruence|].
  destruct (get_user_by_email s (recipient_email request)) as [rcp|];
    [|congruence].
  destruct (negb (is_active rcp)); [congruence|].
  destruct (update_balance s _ _) as [a1 s1].
  destruct (update_balance s1 _ _) as [a2 s2].
  discriminate.
Qed.

(** C10. An internal transfer whose recipient email is the sender's own
    email, or belongs to no user, or belongs to a user whose status is not
    active, raises an [HTTPException] and leaves the session as it was,
    whatever the state of the sender; for a sender who is active and funded
    the three cases are answered by 400 (to yourself), 404 (no such account)
    and 403 (recipient not verified). *)
Theorem internal_transfer_recipient_checks (s : Session)
    (request : TransferRequest) (current_user : User.t) :
  (recipient_email request = User.email current_user
   \/ get_user_by_email s (recipient_email request) = None
   \/ (exists recipient_user,
         get_user_by_email s (recipient_email request) = Some recipient_user
         /\ is_active recipient_user = false) ->
   exists e, internal_transfer s request current_user = (HTTPError e, s))
  /\ (is_active current_user = true ->
      insufficient (get_account_by_user_id s (User.id current_user))
        (transfer_amount request) = false ->
      (recipient_email request = User.email current_user ->
       internal_transfer s request current_user =
         (HTTPError (mkHTTP 400 "Cannot transfer to yourself."), s))
      /\ (recipient_email request <> User.email current_user ->
          get_user_by_email s (recipient_email request) = None ->
          internal_transfer s request current_user =
            (HTTPError (mkHTTP 404 "Recipient account does not exist."), s))
      /\ (forall recipient_user,
            recipient_email request <> User.email current_user ->
            get_user_by_email s (recipient_email request)
              = Some recipient_user ->
            is_active recipient_user = false ->
            internal_transfer s request current_user =
              (HTTPError
                 (mkHTTP 403
                    "Recipient account is at risk (not verified). Transfer aborted."),
               s))).
Proof.
  split.
  - intros Hcase. unfold internal_transfer.
    destruct (negb (is_active current_user)); [eauto|].
    destruct (insufficient _ _); [eauto|].
    destruct (String.eqb (recipient_email request) (User.email current_user))
      eqn:Hself; [eauto|].
    destruct Hcase as [Hown | [Hnone | (rcp & Hsome & Hinactive)]].
    + apply String.eqb_neq in Hself. contradiction.
    + rewrite Hnone. eauto.
    + rewrite Hsome, Hinactive. cbn [negb]. eauto.
  - intros Hact Hbal. unfold internal_transfer. rewrite Hact, Hbal.
    cbn [negb]. split; [|split].
    + intros Hown. apply String.eqb_eq in Hown. now rewrite Hown.
    + intros Hne Hnone. apply String.eqb_neq in Hne. now rewrite Hne, Hnone.
    + intros rcp Hne Hsome Hinactive. apply String.eqb_neq in Hne.
      now rewrite Hne, Hsome, Hinactive.
Qed.

(** C10 on the small exchange: Alice, active with 100, sends 10 to herself,
    to an email nobody registered, and to Carol who is unverified. *)
Lemma internal_transfer_recipient_checks_witness :
  internal_transfer Example.start (mkTransfer "alice@example.com" 10%float)
    Example.alice
  = (HTTPError (mkHTTP 400 "Cannot transfer to yourself."), Example.start)
  /\ internal_transfer Example.start (mkTransfer "erin@example.com" 10%float)
       Example.alice
     = (HTTPError (mkHTTP 404 "Recipient account does not exist."),
        Example.start)
  /\ internal_transfer Example.start (mkTransfer "carol@example.com" 10%float)
       Example.alice
     = (HTTPError
          (mkHTTP 403
             "Recipient account is at risk (not verified). Transfer aborted."),
        Example.start).
Proof.
  split; [|split].
  - destruct (internal_transfer_recipient_checks Example.start
                (mkTransfer "alice@example.com" 10%float) Example.alice)
      as (_ & Hfunded).
    destruct (Hfunded eq_refl eq_refl) as (Hself & _).
    exact (Hself eq_refl).
  - destruct (internal_transfer_recipient_checks Example.start
                (mkTransfer "erin@example.com" 10%float) Example.alice)
      as (_ & Hfunded).
    destruct (Hfunded eq_refl eq_refl) as (_ & Hmissing & _).
    apply Hmissing; [discriminate | reflexivity].
  - destruct (internal_transfer_recipient_checks Example.start
                (mkTransfer "carol@example.com" 10%float) Example.alice)
      as (_ & Hfunded).
    destruct (Hfunded eq_refl eq_refl) as (_ & _ & Hunverified).
    apply (Hunverified Example.carol); [discriminate | reflexivity
                                        | reflexivity].
Defined.

(** C5, as the code has it. A call that raises leaves the whole session,
    hence both balances, as it was, and the call raises when the sender is not
    active, the balance is insufficient or the recipient is invalid. A call
    that returns, between two users who both have an account, leaves the
    sender with the binary64 value [balance + (-amount)] and the recipient
    with [balance + amount], and appends one completed internal_transfer row.
    The debit, the credit and the row are three writes, each made durable by
    a commit of its own, in that order: the first durable state shows the
    debit without the credit and without the row, the second shows both legs
    without the row. *)
Theorem internal_transfer_balances (s : Session) (request : TransferRequest)
    (current_user : User.t) :
  (forall e s',
      internal_transfer s request current_user = (HTTPError e, s') -> s' = s)
  /\ (is_active current_user = false
      \/ insufficient (get_account_by_user_id s (User.id current_user))
           (transfer_amount request) = true
      \/ recipient_email request = User.email current_user
      \/ get_user_by_email s (recipient_email request) = None
      \/ (exists recipient_user,
            get_user_by_email s (recipient_email request) = Some recipient_user
            /\ is_active recipient_user = false) ->
      exists e, internal_transfer s request current_user = (HTTPError e, s))
  /\ (forall body s' sender_account recipient_user recipient_account,
        users_primary_key (users (tables s)) ->
        get_user_by_email s (User.email current_user) = Some current_user ->
        internal_transfer s request current_user = (Return body, s') ->
        get_account_by_user_id s (User.id current_user)
          = Some sender_account ->
        get_user_by_email s (recipient_email request) = Some recipient_user ->
        get_account_by_user_id s (User.id recipient_user)
          = Some recipient_account ->
        let debited :=
          PrimFloat.add (Account.balance sender_account)
                        (PrimFloat.opp (transfer_amount request)) in
        let credited :=
          PrimFloat.add (Account.balance recipient_account)
                        (transfer_amount request) in
        balance_of s' (User.id current_user) = Some debited
        /\ balance_of s' (User.id recipient_user) = Some credited
        /\ transactions (tables s') =
             (transactions (tables s) ++
              [Transaction.mk
                 (Z.of_nat (S (List.length (transactions (tables s)))))
                 (User.id current_user) (Some (User.id recipient_user))
                 None None None "internal_transfer" (transfer_amount request)
                 None "completed" (utcnow s) (Some (utcnow s))])%list
        /\ exists after_debit after_credit,
             commit_log s' =
               tables s' :: after_credit :: after_debit :: commit_log s
             /\ table_balance after_debit (User.id current_user)
                  = Some debited
             /\ table_balance after_debit (User.id recipient_user)
                  = Some (Account.balance recipient_account)
             /\ transactions after_debit = transactions (tables s)
             /\ table_balance after_credit (User.id current_user)
                  = Some debited
             /\ table_balance after_credit (User.id recipient_user)
                  = Some credited
             /\ transactions after_credit = transactions (tables s)).
Proof.
  split; [|split].
  - intros e s'. apply internal_transfer_raises.
  - intros Hcase. unfold internal_transfer.
    destruct (is_active current_user) eqn:Hact; cbn [negb]; [|eauto].
    destruct (insufficient _ _) eqn:Hbal; [eauto|].
    destruct (String.eqb (recipient_email request) (User.email current_user))
      eqn:Hself; [eauto|].
    destruct Hcase as [H | [H | [H | [H | (rcp & Hsome & Hinactive)]]]];
      try discriminate.
    + apply String.eqb_neq in Hself. contradiction.
    + rewrite H. eauto.
    + rewrite Hsome, Hinactive. cbn [negb]. eauto.
  - intros body s' sa rcp ra Hpk Hcur Hret Hsa Hrcp Hra debited credited.
    destruct (internal_transfer_returns _ _ _ _ _ Hret)
      as (Hact & Hbal & Hself & rcp' & Hrcp' & Hract).
    assert (rcp' = rcp) by congruence. subst rcp'.
    pose proof (recipient_is_another_user s request current_user rcp
                  Hpk Hcur Hrcp Hself) as Hne.
    rewrite (internal_transfer_passes s request current_user rcp
               Hact Hbal Hself Hrcp Hract) in Hret.
    set (amt := transfer_amount request) in *.
    set (s1 := snd (update_balance s (User.id current_user)
                      (PrimFloat.opp amt))) in *.
    set (s2 := snd (update_balance s1 (User.id rcp) amt)) in *.
    assert (Hb1 : balance_of s1 (User.id current_user) = Some debited)
      by (apply balance_of_update_balance; exact Hsa).
    assert (Hr1 : get_account_by_user_id s1 (User.id rcp) = Some ra).
    { unfold s1. rewrite balance_of_update_balance_other; assumption. }
    assert (Hr2 : balance_of s2 (User.id rcp) = Some credited)
      by (apply balance_of_update_balance; exact Hr1).
    assert (Hb2 : balance_of s2 (User.id current_user) = Some debited).
    { unfold balance_of, table_balance in *.
      fold (get_account_by_user_id s2 (User.id current_user)).
      unfold s2. rewrite balance_of_update_balance_other by congruence.
      exact Hb1. }
    destruct (update_balance_frame s (User.id current_user)
                (PrimFloat.opp amt)) as (_ & Ht1 & _ & _ & Hn1).
    destruct (update_balance_frame s1 (User.id rcp) amt)
      as (_ & Ht2 & _ & _ & Hn2).
    fold s1 in Ht1, Hn1. fold s2 in Ht2, Hn2.
    pose proof (update_balance_commits s (User.id current_user)
                  (PrimFloat.opp amt) sa Hsa) as Hc1.
    pose proof (update_balance_commits s1 (User.id rcp) amt ra Hr1) as Hc2.
    fold s1 in Hc1. fold s2 in Hc2.
    inversion Hret as [[Hbody Hs']]. clear Hret Hbody.
    unfold balance_of in *. cbn [create_transaction snd tables commit
                                 set_transactions accounts transactions
                                 commit_log table_balance].
    split; [exact Hb2|]. split; [exact Hr2|]. split.
    + rewrite Ht2, Ht1, Hn2, Hn1. reflexivity.
    + exists (tables s1), (tables s2). rewrite Hc2, Hc1.
      repeat split; try assumption.
      * unfold table_balance.
        unfold get_account_by_user_id in Hr1. now rewrite Hr1.
      * congruence.
Qed.

(** C5 on the small exchange: Alice sends 30 of her 100 to Bob, who holds
    20. *)
Lemma internal_transfer_balances_witness :
  let r := internal_transfer Example.start
             (mkTransfer "bob@example.com" 30%float) Example.alice in
  balance_of (snd r) 1 = Some 70%float
  /\ balance_of (snd r) 2 = Some 50%float.
Proof.
  destruct (internal_transfer_balances Example.start
              (mkTransfer "bob@example.com" 30%float) Example.alice)
    as (_ & _ & Hreturns).
  assert (Hpk : users_primary_key (users (tables Example.start))).
  { intros a b Ha Hb Hid. simpl in Ha, Hb.
    destruct Ha as [<-|[<-|[<-|[<-|[]]]]];
      destruct Hb as [<-|[<-|[<-|[<-|[]]]]];
      try reflexivity; discriminate Hid. }
  destruct (Hreturns
              [("message", JStr "Transfer successful")]
              (snd (internal_transfer Example.start
                      (mkTransfer "bob@example.com" 30%float) Example.alice))
              (Account.mk 1 100%float 1) Example.bob (Account.mk 2 20%float 2)
              Hpk eq_refl eq_refl eq_refl eq_refl eq_refl)
    as (Hsender & Hrecipient & _).
  split; [exact Hsender | exact Hrecipient].
Defined.

(** C5 as it is written fails: the two legs and the log row are not one
    atomic unit. The transfer of 30 from Alice to Bob returns, and the first
    state it made durable shows Alice debited (70), Bob not credited (20)
    and no row in the log. *)
Lemma internal_transfer_debit_durable_before_credit :
  let r := internal_transfer Example.start
             (mkTransfer "bob@example.com" 30%float) Example.alice in
  fst r = Return [("message", JStr "Transfer successful")]
  /\ exists after_debit after_credit after_row,
       commit_log (snd r) = [after_row; after_credit; after_debit]
       /\ table_balance after_debit 1 = Some 70%float
       /\ table_balance after_debit 2 = Some 20%float
       /\ transactions after_debit = [].
Proof.
  split; [reflexivity|].
  do 3 eexists. split; [reflexivity|].
  repeat split; vm_compute; reflexivity.
Qed.

(** Beside C5: a recipient who has no account row. [update_balance] skips
    the credit in silence, so the transfer returns with Alice debited, nobody
    credited, and a completed row in the log. *)
Lemma internal_transfer_recipient_without_account :
  let r := internal_transfer Example.start
             (mkTransfer "dave@example.com" 30%float) Example.alice in
  fst r = Return [("message", JStr "Transfer successful")]
  /\ balance_of (snd r) 1 = Some 70%float
  /\ balance_of (snd r) 4 = None
  /\ map Account.balance (accounts (tables (snd r)))
       = [70%float; 20%float; 0%float]
  /\ map Transaction.status (transactions (tables (snd r))) = ["completed"].
Proof.
  repeat split; vm_compute; reflexivity.
Qed.

(** ** KYC *)

Lemma option_eqb_string (o : option string) (n : string) :
  option_eqb String.eqb o n = true <-> o = Some n.
Proof.
  destruct o as [x|]; simpl.
  - rewrite String.eqb_eq. split; congruence.
  - split; discriminate.
Qed.

(** Whoever the query by number finds holds that number. *)
Lemma get_user_by_identity_card_number_some (s : Session) (n : string)
    (u : User.t) :
  get_user_by_identity_card_number s n = Some u ->
  In u (users (tables s)) /\ User.identity_card_number u = Some n.
Proof.
  intros H. apply find_some in H. destruct H as [Hin Heq].
  split; [exact Hin|]. now apply option_eqb_string.
Qed.

(** Somebody holding the number is enough for the query to find a holder. *)
Lemma get_user_by_identity_card_number_finds (s : Session) (n : string)
    (u : User.t) :
  In u (users (tables s)) ->
  User.identity_card_number u = Some n ->
  exists v, get_user_by_identity_card_number s n = Some v.
Proof.
  intros Hin Hn. unfold get_user_by_identity_card_number.
  destruct (find _ (users (tables s))) as [v|] eqn:E; [eauto|].
  pose proof (find_none _ _ E u Hin) as Hno. simpl in Hno.
  apply option_eqb_string in Hn. congruence.
Qed.

(** C7. (1) A user whose status is already active is refused by the KYC
    handler with HTTP 400 and the session is untouched: KYC never activates
    an active user again. (2) With national-id numbers unique in the users
    table, a submission by a user who is not active of a number that a
    different user holds is refused with HTTP 400 and the duplicate-identity
    text, and the session is untouched. (3) A submission by a stored user who
    is not active of a number no different user holds returns the user with
    the submitted full name, the submitted number and status active; that is
    the stored row afterwards, and the accounts and the transaction log are
    as before. *)
Theorem submit_kyc_activates_once (s : Session) (kyc_data : KYCSumbit)
    (current_user : User.t) :
  (is_active current_user = true ->
   submit_kyc s kyc_data current_user =
     (HTTPError (mkHTTP 400 "User is already active."), s))
  /\ (forall db_user other,
        is_active current_user = false ->
        identity_card_unique (users (tables s)) ->
        get_user_by_id s (User.id current_user) = Some db_user ->
        In other (users (tables s)) ->
        User.id other <> User.id current_user ->
        User.identity_card_number other
          = Some (kyc_identity_card_number kyc_data) ->
        submit_kyc s kyc_data current_user =
          (HTTPError
             (mkHTTP 400
                "Identity card number is already registered by another user."),
           s))
  /\ (forall db_user,
        is_active current_user = false ->
        get_user_by_id s (User.id current_user) = Some db_user ->
        (forall other,
            In other (users (tables s)) ->
            User.identity_card_number other
              = Some (kyc_identity_card_number kyc_data) ->
            User.id other = User.id current_user) ->
        let r := submit_kyc s kyc_data current_user in
        exists updated_user,
          fst r = Return updated_user
          /\ get_user_by_id (snd r) (User.id current_user) = Some updated_user
          /\ User.full_name updated_user = Some (kyc_full_name kyc_data)
          /\ User.identity_card_number updated_user
               = Some (kyc_identity_card_number kyc_data)
          /\ User.status updated_user = "active"
          /\ User.id updated_user = User.id db_user
          /\ User.email updated_user = User.email db_user
          /\ accounts (tables (snd r)) = accounts (tables s)
          /\ transactions (tables (snd r)) = transactions (tables s)).
Proof.
  split; [|split].
  - intros Hact. unfold submit_kyc. now rewrite Hact.
  - intros db_user other Hact Huniq Hme Hin Hne Hheld.
    unfold submit_kyc, submit_kyc_info. rewrite Hact, Hme.
    destruct (get_user_by_identity_card_number_finds s _ other Hin Hheld)
      as [holder Hfound].
    rewrite Hfound.
    destruct (get_user_by_identity_card_number_some s _ holder Hfound)
      as [Hin' Hheld'].
    assert (holder = other) by (eapply Huniq; eauto). subst holder.
    apply Z.eqb_neq in Hne. rewrite Hne. reflexivity.
  - intros db_user Hact Hme Hfree r. unfold r, submit_kyc, submit_kyc_info.
    rewrite Hact, Hme.
    assert (Hnot_taken :
              match get_user_by_identity_card_number s
                      (kyc_identity_card_number kyc_data) with
              | Some other => negb (User.id other =? User.id current_user)
              | None => false
              end = false).
    { destruct (get_user_by_identity_card_number s
                  (kyc_identity_card_number kyc_data)) as [holder|] eqn:E;
        [|reflexivity].
      destruct (get_user_by_identity_card_number_some s _ holder E)
        as [Hin Hheld].
      rewrite (Hfree holder Hin Hheld), Z.eqb_refl. reflexivity. }
    rewrite Hnot_taken. cbn [fst snd].
    exists (kyc_assign kyc_data db_user). repeat split.
    unfold get_user_by_id. cbn [tables commit set_users users].
    rewrite find_update_first_same by (intros x Hx; exact Hx).
    unfold get_user_by_id in Hme. now rewrite Hme.
Qed.

(** C7 on the small exchange: Alice, active, submits again; Carol,
    unverified, submits Alice's number; Carol submits a number of her own. *)
Lemma submit_kyc_activates_once_witness :
  submit_kyc Example.start (mkKYC "Alice Chan" "A1234567") Example.alice
  = (HTTPError (mkHTTP 400 "User is already active."), Example.start)
  /\ submit_kyc Example.start (mkKYC "Carol Ho" "A1234567") Example.carol
     = (HTTPError
          (mkHTTP 400
             "Identity card number is already registered by another user."),
        Example.start)
  /\ exists updated_user,
       fst (submit_kyc Example.start (mkKYC "Carol Ho" "C1357924")
              Example.carol) = Return updated_user
       /\ User.status updated_user = "active".
Proof.
  split; [|split].
  - destruct (submit_kyc_activates_once Example.start
                (mkKYC "Alice Chan" "A1234567") Example.alice) as (Hagain & _).
    exact (Hagain eq_refl).
  - destruct (submit_kyc_activates_once Example.start
                (mkKYC "Carol Ho" "A1234567") Example.carol)
      as (_ & Hduplicate & _).
    apply (Hduplicate Example.carol Example.alice).
    + reflexivity.
    + intros a b n Ha Hb Hna Hnb. simpl in Ha, Hb.
      destruct Ha as [<-|[<-|[<-|[<-|[]]]]];
        destruct Hb as [<-|[<-|[<-|[<-|[]]]]];
        try reflexivity; simpl in Hna, Hnb; congruence.
    + reflexivity.
    + simpl. auto.
    + discriminate.
    + reflexivity.
  - destruct (submit_kyc_activates_once Example.start
                (mkKYC "Carol Ho" "C1357924") Example.carol)
      as (_ & _ & Hfresh).
    destruct (Hfresh Example.carol eq_refl eq_refl) as (u & Hret & _ & _ & _ & Hst & _).
    + intros other Hin Hheld. simpl in Hin.
      destruct Hin as [<-|[<-|[<-|[<-|[]]]]]; simpl in Hheld;
        try discriminate Hheld.
    + exists u. split; [exact Hret | exact Hst].
Defined.

(** ** Deposits *)

(** The simulated fiat deposit refuses whoever is not active and writes
    nothing. *)
Lemma confirm_alipay_deposit_requires_active (s : Session)
    (request : DepositBankRequest) (current_user : User.t) :
  is_active current_user = false ->
  confirm_alipay_deposit s request current_user =
    (HTTPError (mkHTTP 403 "User is not active."), s).
Proof. intros H. unfold confirm_alipay_deposit. now rewrite H. Qed.

(** The chain deposit never looks at the status: whoever has an account is
    credited and gets a completed row. *)
Lemma confirm_web3_deposit_credits_anyone (s : Session)
    (req : DepositBankRequest) (user : User.t) (account : Account.t) :
  get_account_by_user_id s (User.id user) = Some account ->
  let r := confirm_web3_deposit s req user in
  fst r = Return [("message", JStr "Web3 deposit confirmed")]
  /\ balance_of (snd r) (User.id user) =
       Some (PrimFloat.add (Account.balance account) (deposit_amount req)).
Proof.
  intros Hacc r. unfold r, confirm_web3_deposit.
  pose proof (balance_of_update_balance s (User.id user) (deposit_amount req)
                account Hacc) as Hb.
  destruct (update_balance s (User.id user) (deposit_amount req)) as [a s1].
  split; [reflexivity | exact Hb].
Qed.

(** C8, the code at the failing input. Carol is unverified. Her simulated
    fiat deposit of 50 is refused with HTTP 403 and nothing is written; her
    chain deposit of 50 is accepted: her balance goes from 0 to 50 and a
    completed deposit_web3 row is logged. *)
Theorem confirm_web3_deposit_by_unverified_user :
  is_active Example.carol = false
  /\ confirm_alipay_deposit Example.start (mkDeposit 50%float) Example.carol
     = (HTTPError (mkHTTP 403 "User is not active."), Example.start)
  /\ fst (confirm_web3_deposit Example.start (mkDeposit 50%float)
            Example.carol)
     = Return [("message", JStr "Web3 deposit confirmed")]
  /\ balance_of Example.start 3 = Some 0%float
  /\ balance_of (snd (confirm_web3_deposit Example.start (mkDeposit 50%float)
                        Example.carol)) 3 = Some 50%float
  /\ transactions (tables (snd (confirm_web3_deposit Example.start
                                  (mkDeposit 50%float) Example.carol)))
     = [Transaction.mk 1 3 None None None None "deposit_web3" 50%float None
          "completed" 1000 (Some 1000)].
Proof.
  repeat split; vm_compute; reflexivity.
Qed.

(** ** Amounts *)

(** C9, as the code has it: amounts are binary64 floats throughout. The
    balance [update_balance] stores is the IEEE-754 sum of the old balance and
    the delta, rounded to nearest even, and [_format_to_wei] truncates the
    IEEE-754 product of the amount and [float(10 ** decimals)]. *)
Theorem amounts_are_binary64 :
  (forall s user_id amount account,
      get_account_by_user_id s user_id = Some account ->
      exists stored,
        balance_of (snd (update_balance s user_id amount)) user_id
          = Some stored
        /\ stored = PrimFloat.add (Account.balance account) amount
        /\ Prim2SF stored =
             SF64add (Prim2SF (Account.balance account)) (Prim2SF amount))
  /\ (forall decimals amount scale,
         float_of_int (10 ^ Z.of_N decimals) = Value scale ->
         exists product,
           _format_to_wei decimals amount = int_of_float product
           /\ product = PrimFloat.mul amount scale
           /\ Prim2SF product = SF64mul (Prim2SF amount) (Prim2SF scale)).
Proof.
  split.
  - intros s user_id amount account Hacc.
    exists (PrimFloat.add (Account.balance account) amount).
    split; [now apply balance_of_update_balance|].
    split; [reflexivity | apply add_spec].
  - intros decimals amount scale Hscale.
    exists (PrimFloat.mul amount scale).
    unfold _format_to_wei. rewrite Hscale.
    split; [reflexivity|]. split; [reflexivity | apply mul_spec].
Qed.

(** C9 on the small exchange: Bob's 20 credited with 0.1, and 1.1 units
    converted at 18 decimals. *)
Lemma amounts_are_binary64_witness :
  balance_of (snd (update_balance Example.start 2 0.1%float)) 2
    = Some 20.100000000000001%float
  /\ _format_to_wei 18%N 1.1%float = Value 1100000000000000128.
Proof.
  destruct amounts_are_binary64 as (Hsum & Hscale).
  split.
  - destruct (Hsum Example.start 2 0.1%float (Account.mk 2 20%float 2)
                eq_refl) as (stored & Hstored & Heq & _).
    rewrite Hstored, Heq. reflexivity.
  - destruct (Hscale 18%N 1.1%float 1e18%float eq_refl)
      as (product & Hwei & Heq & _).
    rewrite Hwei, Heq. reflexivity.
Defined.

(** C9 as it is written fails: the amounts are not computed exactly. Bob's
    balance after a credit of 0.1 on 20 does not stand for the sum of the
    numbers the two floats stand for; credits of 0.1 and 0.2 on an empty
    account store 0.30000000000000004; and 1.1 units at 18 decimals become
    1100000000000000128 of the smallest unit, where the exact product of the
    amount and 10^18 truncates to 1100000000000000088. *)
Lemma amounts_are_not_exact :
  let credited := snd (update_balance Example.start 2 0.1%float) in
  let twice := snd (update_balance
                      (snd (update_balance Example.start 3 0.1%float))
                      3 0.2%float) in
  (exists stored,
      balance_of credited 2 = Some stored
      /\ exact_sum_holds 20%float 0.1%float stored = false)
  /\ balance_of twice 3 = Some 0.30000000000000004%float
  /\ PrimFloat.eqb 0.30000000000000004%float 0.3%float = false
  /\ _format_to_wei 18%N 1.1%float = Value 1100000000000000128
  /\ exact_scaled 18%N 1.1%float = Some 1100000000000000088.
Proof.
  split.
  - eexists. split; [reflexivity | vm_compute; reflexivity].
  - repeat split; vm_compute; reflexivity.
Qed.

(** ** Tables with a unique column *)

Section Appended.
Context {A : Type}.
Variable p : A -> bool.

(** A query on a table with one more row at the end. *)
Lemma find_snoc (l : list A) (x : A) :
  find p (l ++ [x]) =
    match find p l with
    | Some y => Some y
    | None => if p x then Some x else None
    end.
Proof.
  induction l as [|y rest IH]; simpl; [reflexivity|].
  destruct (p y); [reflexivity | exact IH].
Qed.

Lemma filter_snoc (l : list A) (x : A) :
  filter p (l ++ [x]) = (filter p l ++ if p x then [x] else [])%list.
Proof.
  induction l as [|y rest IH]; simpl; [reflexivity|].
  rewrite IH. destruct (p y); reflexivity.
Qed.

(** When every row [p] selects is also selected by [q], the row [q] finds
    first is selected by [p], and [f] keeps what [q] looks at, then after the
    rewrite [q] finds the rewritten row. *)
Lemma find_update_first_hit (q : A -> bool) (f : A -> A) (l : list A) (w : A) :
  (forall x, q (f x) = q x) ->
  (forall x, In x l -> p x = true -> q x = true) ->
  find q l = Some w -> p w = true ->
  find q (update_first p f l) = Some (f w).
Proof.
  intros Hblind. induction l as [|x rest IH]; simpl; [discriminate|].
  intros Hsub Hfind Hw. destruct (q x) eqn:Hq.
  - inversion Hfind; subst x. rewrite Hw. simpl. now rewrite Hblind, Hq.
  - destruct (p x) eqn:Hp.
    + rewrite (Hsub x (or_introl eq_refl) Hp) in Hq. discriminate.
    + simpl. rewrite Hq. apply IH; auto.
Qed.
End Appended.

Lemma NoDup_snoc {A : Type} (l : list A) (x : A) :
  NoDup l -> ~ In x l -> NoDup (l ++ [x]).
Proof.
  intros Hl Hx. induction Hl as [|y rest Hy Hrest IH]; simpl.
  - constructor; [intros [] | constructor].
  - constructor.
    + rewrite in_app_iff. simpl. intros [H | [H | []]]; [auto|].
      subst. apply Hx. now left.
    + apply IH. intros H. apply Hx. now right.
Qed.

(** A text key that no row carries is not among the keys. *)
Lemma find_none_not_key {A : Type} (key : A -> string) (k : string)
    (l : list A) :
  find (fun x => String.eqb (key x) k) l = None -> ~ In k (map key l).
Proof.
  intros Hnone Hin. apply in_map_iff in Hin. destruct Hin as (x & Hk & Hx).
  pose proof (find_none _ _ Hnone x Hx) as Hno. simpl in Hno.
  apply String.eqb_neq in Hno. contradiction.
Qed.

(** Two rows of a table whose key column has no duplicate and that carry
    the same key are one row. *)
Lemma NoDup_key_same_row {A K : Type} (key : A -> K) (l : list A) (a b : A) :
  NoDup (map key l) -> In a l -> In b l -> key a = key b -> a = b.
Proof.
  induction l as [|x rest IH]; simpl; [intros _ []|].
  intros Hnd Ha Hb Hk. inversion Hnd as [|k ks Hnotin Hrest]; subst.
  destruct Ha as [<-|Ha], Hb as [<-|Hb]; auto.
  - exfalso. apply Hnotin. rewrite Hk. now apply in_map.
  - exfalso. apply Hnotin. rewrite <- Hk. now apply in_map.
Qed.

(** ** Whitelist administration *)

(** X1. [add_address_to_global_whitelist]: an address that does not start
    with 0x or is not 42 characters long is refused with HTTP 400 and nothing
    is written; a well-formed address already listed is refused with HTTP 400
    and nothing is written; a well-formed address not yet listed is appended
    with status normal and no freezing time, is what a lookup of that address
    finds afterwards, leaves the lookups of all other addresses as they were,
    and keeps the address column free of duplicates. *)
Theorem add_address_to_global_whitelist_checks (s : Session)
    (whitelist_data : WhitelistAddressCreate) :
  let address := create_address whitelist_data in
  let r := add_address_to_global_whitelist s whitelist_data in
  (String.prefix "0x" address = false \/ String.length address <> 42%nat ->
   r = (HTTPError (mkHTTP 400 "Invalid Ethereum address format."), s))
  /\ (forall entry,
        String.prefix "0x" address = true ->
        String.length address = 42%nat ->
        get_whitelist_address_by_address s address = Some entry ->
        r = (HTTPError (mkHTTP 400 "Address already in whitelist."), s))
  /\ (String.prefix "0x" address = true ->
      String.length address = 42%nat ->
      get_whitelist_address_by_address s address = None ->
      exists entry,
        fst r = Return entry
        /\ WithdrawalWhitelist.address entry = address
        /\ WithdrawalWhitelist.label entry = create_label whitelist_data
        /\ WithdrawalWhitelist.status entry = "normal"
        /\ WithdrawalWhitelist.frozen_at entry = None
        /\ withdrawal_whitelist (tables (snd r)) =
             (withdrawal_whitelist (tables s) ++ [entry])%list
        /\ get_whitelist_address_by_address (snd r) address = Some entry
        /\ (forall other, other <> address ->
              get_whitelist_address_by_address (snd r) other =
                get_whitelist_address_by_address s other)
        /\ (addresses_unique (withdrawal_whitelist (tables s)) ->
            addresses_unique (withdrawal_whitelist (tables (snd r))))).
Proof.
  intros address r. unfold r, add_address_to_global_whitelist.
  fold address. split; [|split].
  - intros [Hp | Hl].
    + now rewrite Hp.
    + apply Nat.eqb_neq in Hl. rewrite Hl. now rewrite orb_true_r.
  - intros entry Hp Hl Hfound. rewrite Hp, Hl, Hfound. reflexivity.
  - intros Hp Hl Hnone. rewrite Hp, Hl, Hnone. cbn [negb orb Nat.eqb].
    simpl fst. simpl snd. eexists. split; [reflexivity|].
    repeat (split; [reflexivity|]). split; [|split].
    + unfold get_whitelist_address_by_address in *. simpl.
      rewrite find_snoc, Hnone. simpl. fold address.
      now rewrite String.eqb_refl.
    + intros other Hne. unfold get_whitelist_address_by_address. simpl.
      rewrite find_snoc. simpl.
      assert (Hd : String.eqb (create_address whitelist_data) other = false)
        by (apply String.eqb_neq; unfold address in Hne; congruence).
      rewrite Hd.
      destruct (find _ (withdrawal_whitelist (tables s))); reflexivity.
    + unfold addresses_unique. simpl. intros Hnd. rewrite map_app. simpl.
      apply NoDup_snoc; [exact Hnd|].
      apply find_none_not_key. exact Hnone.
Qed.

(** X1 on the small exchange: a short address, the wallet already listed,
    and a new wallet. *)
Lemma add_address_to_global_whitelist_checks_witness :
  add_address_to_global_whitelist Example.start
    (mkWhitelistAddressCreate "Short" "0xabc")
  = (HTTPError (mkHTTP 400 "Invalid Ethereum address format."), Example.start)
  /\ add_address_to_global_whitelist Example.start
       (mkWhitelistAddressCreate "Again" Example.hot_wallet)
     = (HTTPError (mkHTTP 400 "Address already in whitelist."), Example.start)
  /\ exists entry,
       get_whitelist_address_by_address
         (snd (add_address_to_global_whitelist Example.start
                 (mkWhitelistAddressCreate "New venue" Desk.new_wallet)))
         Desk.new_wallet = Some entry
       /\ WithdrawalWhitelist.status entry = "normal".
Proof.
  split; [|split].
  - destruct (add_address_to_global_whitelist_checks Example.start
                (mkWhitelistAddressCreate "Short" "0xabc")) as (Hbad & _).
    apply Hbad. right. discriminate.
  - destruct (add_address_to_global_whitelist_checks Example.start
                (mkWhitelistAddressCreate "Again" Example.hot_wallet))
      as (_ & Hlisted & _).
    apply (Hlisted (WithdrawalWhitelist.mk 1 Example.hot_wallet
                      "Partner exchange" "normal" None));
      reflexivity.
  - destruct (add_address_to_global_whitelist_checks Example.start
                (mkWhitelistAddressCreate "New venue" Desk.new_wallet))
      as (_ & _ & Hnew).
    destruct (Hnew eq_refl eq_refl eq_refl)
      as (entry & _ & _ & _ & Hstatus & _ & _ & Hlookup & _).
    exists entry. split; [exact Hlookup | exact Hstatus].
Defined.

(** X2. [update_whitelist_status]: a status other than normal and frozen is
    refused with HTTP 400, an id that no entry has with HTTP 404, and in both
    cases nothing is written. Otherwise the entry with that id gets the
    status, its freezing time is the clock reading when the status is frozen
    and is cleared when it is normal, its address and label stay, it is what
    the handler returns, and the accounts and the log are untouched. *)
Theorem update_whitelist_status_sets_frozen_at (s : Session) (address_id : Z)
    (status_update : WhitelistAddressStatusUpdate) :
  let status := update_status status_update in
  let r := update_whitelist_status s address_id status_update in
  (status <> "normal" -> status <> "frozen" ->
   r = (HTTPError
          (mkHTTP 400 "Invalid status. Must be 'normal' or 'frozen'."), s))
  /\ (status = "normal" \/ status = "frozen" ->
      find (fun w => WithdrawalWhitelist.id w =? address_id)
           (withdrawal_whitelist (tables s)) = None ->
      r = (HTTPError (mkHTTP 404 "Whitelist address not found."), s))
  /\ (forall entry,
        status = "normal" \/ status = "frozen" ->
        find (fun w => WithdrawalWhitelist.id w =? address_id)
             (withdrawal_whitelist (tables s)) = Some entry ->
        exists updated,
          fst r = Return updated
          /\ find (fun w => WithdrawalWhitelist.id w =? address_id)
                  (withdrawal_whitelist (tables (snd r))) = Some updated
          /\ WithdrawalWhitelist.status updated = status
          /\ (status = "frozen" ->
              WithdrawalWhitelist.frozen_at updated = Some (utcnow s))
          /\ (status = "normal" ->
              WithdrawalWhitelist.frozen_at updated = None)
          /\ WithdrawalWhitelist.address updated
               = WithdrawalWhitelist.address entry
          /\ WithdrawalWhitelist.label updated = WithdrawalWhitelist.label entry
          /\ accounts (tables (snd r)) = accounts (tables s)
          /\ transactions (tables (snd r)) = transactions (tables s)).
Proof.
  intros status r. unfold r, update_whitelist_status. fold status.
  assert (Hvalid : status = "normal" \/ status = "frozen" ->
                   negb (String.eqb status "normal"
                         || String.eqb status "frozen") = false).
  { intros [H | H]; rewrite H; reflexivity. }
  split; [|split].
  - intros Hn Hf. apply String.eqb_neq in Hn, Hf. now rewrite Hn, Hf.
  - intros Hok Hnone. rewrite (Hvalid Hok).
    unfold update_whitelist_address_status. now rewrite Hnone.
  - intros entry Hok Hsome. rewrite (Hvalid Hok).
    unfold update_whitelist_address_status. fold status. rewrite Hsome.
    cbn [fst snd]. eexists. split; [reflexivity|]. split.
    + cbn [tables commit set_withdrawal_whitelist withdrawal_whitelist].
      rewrite find_update_first_same by (intros x Hx; exact Hx).
      now rewrite Hsome.
    + cbn. repeat split; auto.
      * intros H. now rewrite H.
      * intros H. now rewrite H.
Qed.

(** X2 on the small exchange: the partner exchange's wallet, entry 1, is
    frozen at clock reading 1000; the suspended venue, entry 2, is released. *)
Lemma update_whitelist_status_sets_frozen_at_witness :
  (exists updated,
      fst (update_whitelist_status Example.start 1 (mkStatusUpdate "frozen"))
        = Return updated
      /\ WithdrawalWhitelist.frozen_at updated = Some 1000)
  /\ (exists updated,
         fst (update_whitelist_status Example.start 2 (mkStatusUpdate "normal"))
           = Return updated
         /\ WithdrawalWhitelist.frozen_at updated = None)
  /\ update_whitelist_status Example.start 7 (mkStatusUpdate "frozen")
     = (HTTPError (mkHTTP 404 "Whitelist address not found."), Example.start).
Proof.
  split; [|split].
  - destruct (update_whitelist_status_sets_frozen_at Example.start 1
                (mkStatusUpdate "frozen")) as (_ & _ & Hset).
    destruct (Hset (WithdrawalWhitelist.mk 1 Example.hot_wallet
                      "Partner exchange" "normal" None)
                (or_intror eq_refl) eq_refl)
      as (updated & Hret & _ & _ & Hfrozen & _).
    exists updated. split; [exact Hret | exact (Hfrozen eq_refl)].
  - destruct (update_whitelist_status_sets_frozen_at Example.start 2
                (mkStatusUpdate "normal")) as (_ & _ & Hset).
    destruct (Hset (WithdrawalWhitelist.mk 2 Example.frozen_wallet
                      "Suspended venue" "frozen" (Some 900))
                (or_introl eq_refl) eq_refl)
      as (updated & Hret & _ & _ & _ & Hnormal & _).
    exists updated. split; [exact Hret | exact (Hnormal eq_refl)].
  - destruct (update_whitelist_status_sets_frozen_at Example.start 7
                (mkStatusUpdate "frozen")) as (_ & Hmissing & _).
    apply Hmissing; [right; reflexivity | reflexivity].
Defined.

(** The whitelist entry a lookup by address finds after the entry with a
    given id was rewritten, in a whitelist whose ids are unique. *)
Lemma lookup_after_status_update (s : Session) (entry : WithdrawalWhitelist.t)
    (status : string) :
  whitelist_ids_unique (withdrawal_whitelist (tables s)) ->
  get_whitelist_address_by_address s (WithdrawalWhitelist.address entry)
    = Some entry ->
  let s' := snd (update_whitelist_address_status s
                   (WithdrawalWhitelist.id entry) status) in
  get_whitelist_address_by_address s' (WithdrawalWhitelist.address entry)
    = Some (whitelist_status_assign status (utcnow s) entry)
  /\ accounts (tables s') = accounts (tables s)
  /\ users (tables s') = users (tables s)
  /\ transactions (tables s') = transactions (tables s).
Proof.
  intros Hids Hlookup s'. unfold get_whitelist_address_by_address in Hlookup.
  pose proof (find_some _ _ Hlookup) as [Hin _].
  assert (Hbyid : exists first,
             find (fun w => WithdrawalWhitelist.id w
                            =? WithdrawalWhitelist.id entry)
                  (withdrawal_whitelist (tables s)) = Some first).
  { destruct (find (fun w => WithdrawalWhitelist.id w
                               =? WithdrawalWhitelist.id entry)
                (withdrawal_whitelist (tables s))) as [first|] eqn:E;
      [eauto|].
    pose proof (find_none _ _ E entry Hin) as Hno. simpl in Hno.
    rewrite Z.eqb_refl in Hno. discriminate. }
  destruct Hbyid as [first Hfirst].
  unfold s', update_whitelist_address_status. rewrite Hfirst.
  cbn [snd tables commit set_withdrawal_whitelist withdrawal_whitelist
       accounts users transactions].
  split; [|auto]. unfold get_whitelist_address_by_address.
  cbn [tables commit set_withdrawal_whitelist withdrawal_whitelist].
  apply find_update_first_hit; auto.
  - intros x Hx Hid. apply Z.eqb_eq in Hid.
    rewrite (NoDup_key_same_row WithdrawalWhitelist.id _ x entry Hids Hx Hin
               Hid).
    apply String.eqb_refl.
  - apply Z.eqb_refl.
Qed.

(** X3. Freezing an address closes it for withdrawals and releasing it opens
    it again. In a whitelist with unique ids, after [update_whitelist_status]
    set the entry of an address to frozen, a withdrawal to that address by an
    active user with a sufficient balance is refused with HTTP 403 and the
    frozen detail, without reaching the blockchain service and without a
    write; after it set the entry to normal, such a withdrawal reaches the
    blockchain service. *)
Theorem freezing_closes_withdrawals (s : Session)
    (entry : WithdrawalWhitelist.t) (request : WithdrawWeb3Request)
    (current_user : User.t) (account : Account.t) :
  whitelist_ids_unique (withdrawal_whitelist (tables s)) ->
  recipient_web3_address request = WithdrawalWhitelist.address entry ->
  get_whitelist_address_by_address s (WithdrawalWhitelist.address entry)
    = Some entry ->
  is_active current_user = true ->
  get_account_by_user_id s (User.id current_user) = Some account ->
  PrimFloat.ltb (Account.balance account) (withdraw_amount request) = false ->
  let frozen :=
    snd (update_whitelist_status s (WithdrawalWhitelist.id entry)
           (mkStatusUpdate "frozen")) in
  let released :=
    snd (update_whitelist_status s (WithdrawalWhitelist.id entry)
           (mkStatusUpdate "normal")) in
  (forall gateway,
      run gateway (withdraw_to_web3 frozen request current_user) =
        (HTTPError
           (mkHTTP 403
              "This withdrawal address is currently frozen. Transaction rejected."),
         frozen))
  /\ calls_gateway (withdraw_to_web3 frozen request current_user) = false
  /\ withdraw_to_web3 released request current_user =
       TransferHKDC (recipient_web3_address request) (withdraw_amount request)
         released (withdraw_to_web3_settle request current_user).
Proof.
  intros Hids Haddr Hlookup Hact Hacc Hbal frozen released.
  assert (Hsession : forall status,
             status = "normal" \/ status = "frozen" ->
             snd (update_whitelist_status s (WithdrawalWhitelist.id entry)
                    (mkStatusUpdate status))
             = snd (update_whitelist_address_status s
                      (WithdrawalWhitelist.id entry) status)).
  { intros status Hok. unfold update_whitelist_status. cbn [update_status].
    assert (Hneg : negb (String.eqb status "normal"
                         || String.eqb status "frozen") = false)
      by (destruct Hok as [H | H]; rewrite H; reflexivity).
    rewrite Hneg.
    destruct (update_whitelist_address_status s _ status) as [[w|] t];
      reflexivity. }
  assert (Hafter : forall status,
             status = "normal" \/ status = "frozen" ->
             let s' := snd (update_whitelist_status s
                              (WithdrawalWhitelist.id entry)
                              (mkStatusUpdate status)) in
             get_whitelist_address_by_address s'
               (recipient_web3_address request)
               = Some (whitelist_status_assign status (utcnow s) entry)
             /\ get_account_by_user_id s' (User.id current_user)
                = Some account).
  { intros status Hok s'. unfold s'. rewrite (Hsession status Hok), Haddr.
    destruct (lookup_after_status_update s entry status Hids Hlookup)
      as (Hfound & Haccs & _).
    split; [exact Hfound|].
    unfold get_account_by_user_id in *. now rewrite Haccs. }
  destruct (Hafter "frozen" (or_intror eq_refl)) as [Hwf Haf].
  destruct (Hafter "normal" (or_introl eq_refl)) as [Hwn Han].
  fold frozen in Hwf, Haf. fold released in Hwn, Han.
  assert (Hrefused :
            withdraw_to_web3 frozen request current_user =
              Done (HTTPError
                      (mkHTTP 403
                         "This withdrawal address is currently frozen. Transaction rejected."))
                   frozen).
  { unfold withdraw_to_web3. rewrite Hact, Haf. cbn [negb insufficient].
    rewrite Hbal, Hwf. reflexivity. }
  split; [|split].
  - intros gateway. now rewrite Hrefused.
  - now rewrite Hrefused.
  - apply withdraw_to_web3_reaches_gateway
      with account (whitelist_status_assign "normal" (utcnow s) entry);
      auto.
Qed.

(** X3 on the small exchange: the partner exchange's wallet is frozen and
    Alice asks for 30 to it. *)
Lemma freezing_closes_withdrawals_witness :
  let frozen :=
    snd (update_whitelist_status Example.start 1 (mkStatusUpdate "frozen")) in
  run Example.gateway_ok
    (withdraw_to_web3 frozen Example.withdrawal Example.alice)
  = (HTTPError
       (mkHTTP 403
          "This withdrawal address is currently frozen. Transaction rejected."),
     frozen).
Proof.
  assert (Hids : whitelist_ids_unique
                   (withdrawal_whitelist (tables Example.start))).
  { unfold whitelist_ids_unique. simpl.
    repeat constructor; simpl; intuition discriminate. }
  destruct (freezing_closes_withdrawals Example.start
              (WithdrawalWhitelist.mk 1 Example.hot_wallet "Partner exchange"
                 "normal" None)
              Example.withdrawal Example.alice (Account.mk 1 100%float 1)
              Hids eq_refl eq_refl eq_refl eq_refl eq_refl)
    as (Hrefused & _).
  exact (Hrefused Example.gateway_ok).
Defined.

(** ** Registration and activation *)

(** X4. [register_user]: an email that a user already has is refused with
    HTTP 400 and nothing is written. Otherwise the new user is returned, with
    that email, status unverified, no name and no national-id number; a lookup
    of the email finds the new user afterwards and the lookups of all other
    emails are as before; the email column stays free of duplicates; when no
    account row already points at the new id, the user's balance is 0; the
    log is untouched. The user row and the account row are made durable one
    after the other: the first durable state has the user and no account for
    it yet. *)
Theorem register_user_creates_unverified_user (s : Session)
    (user : UserCreate) (hashed_password : string) :
  let r := register_user s user hashed_password in
  (forall existing,
      get_user_by_email s (create_email user) = Some existing ->
      r = (HTTPError (mkHTTP 400 "Email already registered"), s))
  /\ (get_user_by_email s (create_email user) = None ->
      exists db_user,
        fst r = Return db_user
        /\ User.email db_user = create_email user
        /\ User.status db_user = "unverified"
        /\ User.full_name db_user = None
        /\ User.identity_card_number db_user = None
        /\ User.hashed_password db_user = hashed_password
        /\ get_user_by_email (snd r) (create_email user) = Some db_user
        /\ (forall other, other <> create_email user ->
              get_user_by_email (snd r) other = get_user_by_email s other)
        /\ (emails_unique (users (tables s)) ->
            emails_unique (users (tables (snd r))))
        /\ (get_account_by_user_id s (User.id db_user) = None ->
            balance_of (snd r) (User.id db_user) = Some 0%float)
        /\ transactions (tables (snd r)) = transactions (tables s)
        /\ exists user_only,
             commit_log (snd r) = tables (snd r) :: user_only :: commit_log s
             /\ users user_only = (users (tables s) ++ [db_user])%list
             /\ accounts user_only = accounts (tables s)).
Proof.
  intros r. unfold r, register_user. split.
  - intros existing Hfound. now rewrite Hfound.
  - intros Hnone. rewrite Hnone. cbn [create_user fst snd].
    eexists. split; [reflexivity|].
    repeat (split; [reflexivity|]).
    cbn [tables commit set_users set_accounts users accounts transactions
         commit_log].
    split; [|split; [|split; [|split; [|split]]]].
    + unfold get_user_by_email in *.
      cbn [tables commit set_users set_accounts users].
      rewrite find_snoc, Hnone. cbn [User.email].
      now rewrite String.eqb_refl.
    + intros other Hne. unfold get_user_by_email.
      cbn [tables commit set_users set_accounts users].
      rewrite find_snoc. cbn [User.email].
      assert (Hd : String.eqb (create_email user) other = false)
        by (apply String.eqb_neq; congruence).
      rewrite Hd. destruct (find _ (users (tables s))); reflexivity.
    + unfold emails_unique. intros Hnd. rewrite map_app. simpl.
      apply NoDup_snoc; [exact Hnd|].
      apply find_none_not_key. exact Hnone.
    + intros Hfree. unfold balance_of, table_balance.
      unfold get_account_by_user_id in Hfree.
      cbn [tables commit set_users set_accounts users accounts User.id] in *.
      rewrite find_snoc, Hfree. cbn [Account.user_id].
      now rewrite Z.eqb_refl.
    + reflexivity.
    + eexists. split; [reflexivity|]. split; reflexivity.
Qed.

(** X4 on the small exchange: Alice's email again, and Erin's. *)
Lemma register_user_creates_unverified_user_witness :
  register_user Example.start
    (mkUserCreate "alice@example.com" "another password") "$2b$12$again"
  = (HTTPError (mkHTTP 400 "Email already registered"), Example.start)
  /\ exists db_user,
       fst (register_user Example.start Desk.erin "$2b$12$erin")
         = Return db_user
       /\ User.status db_user = "unverified"
       /\ balance_of (snd (register_user Example.start Desk.erin
                             "$2b$12$erin")) (User.id db_user)
          = Some 0%float.
Proof.
  split.
  - destruct (register_user_creates_unverified_user Example.start
                (mkUserCreate "alice@example.com" "another password")
                "$2b$12$again") as (Hdup & _).
    exact (Hdup Example.alice eq_refl).
  - destruct (register_user_creates_unverified_user Example.start
                Desk.erin "$2b$12$erin") as (_ & Hnew).
    destruct (Hnew eq_refl)
      as (db_user & Hret & _ & Hstatus & _ & _ & _ & _ & _ & _ & Hzero & _).
    exists db_user. split; [exact Hret|]. split; [exact Hstatus|].
    apply Hzero.
    vm_compute in Hret. injection Hret as <-. reflexivity.
Defined.

(** X5. [activate_user] makes a user active without any identity data. A
    user already active is refused with HTTP 400; a user whose row is gone
    gets [None] and nothing is written; otherwise the stored row gets status
    active while its name and national-id number stay what they were (NULL
    for a user who never submitted KYC), and accounts and log are untouched. *)
Theorem activate_user_skips_kyc (s : Session) (current_user : User.t) :
  let r := activate_user s current_user in
  (is_active current_user = true ->
   r = (HTTPError (mkHTTP 400 "User is already active"), s))
  /\ (is_active current_user = false ->
      get_user_by_id s (User.id current_user) = None ->
      r = (Return None, s))
  /\ (forall db_user,
        is_active current_user = false ->
        get_user_by_id s (User.id current_user) = Some db_user ->
        exists updated,
          fst r = Return (Some updated)
          /\ get_user_by_id (snd r) (User.id current_user) = Some updated
          /\ is_active updated = true
          /\ User.full_name updated = User.full_name db_user
          /\ User.identity_card_number updated
               = User.identity_card_number db_user
          /\ User.email updated = User.email db_user
          /\ accounts (tables (snd r)) = accounts (tables s)
          /\ transactions (tables (snd r)) = transactions (tables s)).
Proof.
  intros r. unfold r, activate_user. split; [|split].
  - intros Hact. now rewrite Hact.
  - intros Hact Hgone. rewrite Hact. unfold update_user_status.
    now rewrite Hgone.
  - intros db_user Hact Hrow. rewrite Hact. unfold update_user_status.
    rewrite Hrow. cbn [fst snd]. eexists. split; [reflexivity|]. split.
    + unfold get_user_by_id in *. cbn [tables commit set_users users].
      rewrite find_update_first_same by (intros x Hx; exact Hx).
      now rewrite Hrow.
    + repeat split.
Qed.

(** X5 on the small exchange: Carol, who never submitted KYC. *)
Lemma activate_user_skips_kyc_witness :
  exists updated,
    fst (activate_user Example.start Example.carol) = Return (Some updated)
    /\ is_active updated = true
    /\ User.identity_card_number updated = None.
Proof.
  destruct (activate_user_skips_kyc Example.start Example.carol)
    as (_ & _ & Hrow).
  destruct (Hrow Example.carol eq_refl eq_refl)
    as (updated & Hret & _ & Hactive & _ & Hnumber & _).
  exists updated. split; [exact Hret|]. split; [exact Hactive|].
  exact Hnumber.
Defined.

(** X6. A user whose status is not active is refused with HTTP 403 by the
    simulated fiat deposit, the internal transfer, both withdrawals and the
    binding of a bank card, whatever the request, the balance and the
    blockchain service, and none of them writes anything or reaches the
    blockchain service. *)
Theorem inactive_user_is_refused (s : Session) (current_user : User.t) :
  is_active current_user = false ->
  (forall request,
      confirm_alipay_deposit s request current_user =
        (HTTPError (mkHTTP 403 "User is not active."), s))
  /\ (forall request,
         internal_transfer s request current_user =
           (HTTPError
              (mkHTTP 403 "Your account is not active. Please complete KYC."),
            s))
  /\ (forall request,
         withdraw_to_bank s request current_user =
           (HTTPError
              (mkHTTP 403 "User is not active. Please complete KYC."), s))
  /\ (forall request,
         withdraw_to_web3 s request current_user =
           Done (HTTPError (mkHTTP 403 "User is not active. KYC is required."))
                s)
  /\ (forall bank_account,
         add_user_bank_account s bank_account current_user =
           (HTTPError
              (mkHTTP 403 "User is not active. Please complete KYC first."),
            s)).
Proof.
  intros Hinactive.
  unfold confirm_alipay_deposit, internal_transfer, withdraw_to_bank,
    withdraw_to_web3, add_user_bank_account.
  rewrite Hinactive. cbn [negb]. repeat split.
Qed.

(** X6 on the small exchange: Carol, unverified, asks for a transfer. *)
Lemma inactive_user_is_refused_witness :
  internal_transfer Example.start (mkTransfer "bob@example.com" 1%float)
    Example.carol
  = (HTTPError
       (mkHTTP 403 "Your account is not active. Please complete KYC."),
     Example.start).
Proof.
  destruct (inactive_user_is_refused Example.start Example.carol eq_refl)
    as (_ & Htransfer & _).
  exact (Htransfer (mkTransfer "bob@example.com" 1%float)).
Defined.

(** ** Bank cards *)

(** X7. [add_user_bank_account], for an active user: a card number that any
    bank account row already carries, the user's own included, is refused with
    HTTP 400 and nothing is written; otherwise the card is returned, belongs
    to the user, is the last of the user's cards afterwards, leaves the cards
    of every other user as they were, is found by its number, and the card
    number column stays free of duplicates. *)
Theorem add_user_bank_account_binds_card (s : Session)
    (bank_account : BankAccountCreate) (current_user : User.t) :
  is_active current_user = true ->
  let r := add_user_bank_account s bank_account current_user in
  (forall existing,
      get_bank_account_by_card_number s (create_card_number bank_account)
        = Some existing ->
      r = (HTTPError (mkHTTP 400 "Bank card number already registered."), s))
  /\ (get_bank_account_by_card_number s (create_card_number bank_account)
        = None ->
      exists card,
        fst r = Return card
        /\ BankAccount.user_id card = User.id current_user
        /\ BankAccount.card_number card = create_card_number bank_account
        /\ BankAccount.bank_name card = create_bank_name bank_account
        /\ BankAccount.account_name card = create_account_name bank_account
        /\ read_user_bank_accounts (snd r) current_user =
             (read_user_bank_accounts s current_user ++ [card])%list
        /\ (forall other, other <> User.id current_user ->
              get_bank_accounts_by_user_id (snd r) other =
                get_bank_accounts_by_user_id s other)
        /\ get_bank_account_by_card_number (snd r)
             (create_card_number bank_account) = Some card
        /\ (card_numbers_unique (bank_accounts (tables s)) ->
            card_numbers_unique (bank_accounts (tables (snd r))))
        /\ accounts (tables (snd r)) = accounts (tables s)).
Proof.
  intros Hact r. unfold r, add_user_bank_account. rewrite Hact. cbn [negb].
  split.
  - intros existing Hfound. now rewrite Hfound.
  - intros Hnone. rewrite Hnone. cbn [create_bank_account fst snd].
    eexists. split; [reflexivity|].
    repeat (split; [reflexivity|]).
    split; [|split; [|split; [|split]]].
    + unfold read_user_bank_accounts, get_bank_accounts_by_user_id.
      cbn [tables commit set_bank_accounts bank_accounts].
      rewrite filter_snoc. cbn [BankAccount.user_id].
      now rewrite Z.eqb_refl.
    + intros other Hne. unfold get_bank_accounts_by_user_id.
      cbn [tables commit set_bank_accounts bank_accounts].
      rewrite filter_snoc. cbn [BankAccount.user_id].
      assert (Hd : (User.id current_user =? other) = false)
        by (apply Z.eqb_neq; congruence).
      rewrite Hd. apply app_nil_r.
    + unfold get_bank_account_by_card_number in *.
      cbn [tables commit set_bank_accounts bank_accounts].
      rewrite find_snoc, Hnone. cbn [BankAccount.card_number].
      now rewrite String.eqb_refl.
    + unfold card_numbers_unique.
      cbn [tables commit set_bank_accounts bank_accounts].
      intros Hnd. rewrite map_app. simpl.
      apply NoDup_snoc; [exact Hnd|].
      apply find_none_not_key. exact Hnone.
    + reflexivity.
Qed.

(** X7 on the small exchange: Bob binds Alice's card number, then a card of
    his own. *)
Lemma add_user_bank_account_binds_card_witness :
  add_user_bank_account Example.start
    (mkBankAccountCreate "Bob Lee" "HSBC" "6222000011112222") Example.bob
  = (HTTPError (mkHTTP 400 "Bank card number already registered."),
     Example.start)
  /\ exists card,
       read_user_bank_accounts
         (snd (add_user_bank_account Example.start Desk.card Example.bob))
         Example.bob = [card]
       /\ BankAccount.card_number card = "6222000033334444".
Proof.
  split.
  - destruct (add_user_bank_account_binds_card Example.start
                (mkBankAccountCreate "Bob Lee" "HSBC" "6222000011112222")
                Example.bob eq_refl) as (Htaken & _).
    apply (Htaken (BankAccount.mk 1 "Alice Chan" "HSBC" "6222000011112222" 1)).
    reflexivity.
  - destruct (add_user_bank_account_binds_card Example.start Desk.card
                Example.bob eq_refl) as (_ & Hnew).
    destruct (Hnew eq_refl) as (card & _ & _ & Hnumber & _ & _ & Hlist & _).
    exists card. split; [exact Hlist | exact Hnumber].
Defined.

(** The ownership test of [withdraw_to_bank], read on the table. *)
Lemma card_ids_owned (s : Session) (user_id bank_account_id : Z) :
  existsb (Z.eqb bank_account_id)
          (map BankAccount.id (get_bank_accounts_by_user_id s user_id)) = true
  <-> exists card,
        In card (bank_accounts (tables s))
        /\ BankAccount.id card = bank_account_id
        /\ BankAccount.user_id card = user_id.
Proof.
  unfold get_bank_accounts_by_user_id. rewrite existsb_exists. split.
  - intros (k & Hin & Hk). apply in_map_iff in Hin.
    destruct Hin as (card & Hid & Hcard). apply filter_In in Hcard.
    destruct Hcard as [Hrow Huser]. apply Z.eqb_eq in Hk, Huser.
    exists card. repeat split; congruence.
  - intros (card & Hrow & Hid & Huser). exists bank_account_id. split.
    + apply in_map_iff. exists card. split; [exact Hid|].
      apply filter_In. split; [exact Hrow|]. now apply Z.eqb_eq.
    + apply Z.eqb_refl.
Qed.

(** X8. [withdraw_to_bank], for an active user with a sufficient balance:
    when no bank account row with the requested id belongs to the user (the
    id is unknown or the card is somebody else's), the withdrawal is refused
    with HTTP 403 and nothing is written; when such a row belongs to the
    user, the balance becomes the binary64 value [balance + (-amount)], the
    accounts of the other users stay, and the log gains exactly one completed
    withdraw_bank row with the amount and the card's id. *)
Theorem withdraw_to_bank_checks_card_owner (s : Session)
    (request : WithdrawBankRequest) (current_user : User.t)
    (account : Account.t) :
  is_active current_user = true ->
  get_account_by_user_id s (User.id current_user) = Some account ->
  PrimFloat.ltb (Account.balance account) (withdraw_bank_amount request)
    = false ->
  let r := withdraw_to_bank s request current_user in
  ((forall card,
       In card (bank_accounts (tables s)) ->
       BankAccount.id card = withdraw_bank_account_id request ->
       BankAccount.user_id card <> User.id current_user) ->
   r = (HTTPError
          (mkHTTP 403 "Bank account does not belong to the current user."), s))
  /\ (forall card,
        In card (bank_accounts (tables s)) ->
        BankAccount.id card = withdraw_bank_account_id request ->
        BankAccount.user_id card = User.id current_user ->
        fst r = Return [("message",
                         JStr "Bank withdrawal initiated successfully.")]
        /\ balance_of (snd r) (User.id current_user) =
             Some (PrimFloat.add (Account.balance account)
                     (PrimFloat.opp (withdraw_bank_amount request)))
        /\ (forall other, other <> User.id current_user ->
              get_account_by_user_id (snd r) other =
                get_account_by_user_id s other)
        /\ transactions (tables (snd r)) =
             (transactions (tables s) ++
              [Transaction.mk
                 (Z.of_nat (S (List.length (transactions (tables s)))))
                 (User.id current_user) None None None
                 (Some (withdraw_bank_account_id request)) "withdraw_bank"
                 (withdraw_bank_amount request) None "completed" (utcnow s)
                 (Some (utcnow s))])%list).
Proof.
  intros Hact Hacc Hbal r. unfold r, withdraw_to_bank.
  rewrite Hact, Hacc. cbn [negb insufficient]. rewrite Hbal.
  split.
  - intros Hforeign.
    destruct (existsb (Z.eqb (withdraw_bank_account_id request))
                (map BankAccount.id
                   (get_bank_accounts_by_user_id s (User.id current_user))))
      eqn:Hown; [|reflexivity].
    apply card_ids_owned in Hown. destruct Hown as (card & Hrow & Hid & Hu).
    exfalso. exact (Hforeign card Hrow Hid Hu).
  - intros card Hrow Hid Huser.
    assert (Hown : existsb (Z.eqb (withdraw_bank_account_id request))
                     (map BankAccount.id
                        (get_bank_accounts_by_user_id s
                           (User.id current_user))) = true)
      by (apply card_ids_owned; eauto).
    rewrite Hown. cbn [negb].
    pose proof (balance_of_update_balance s (User.id current_user)
                  (PrimFloat.opp (withdraw_bank_amount request)) account Hacc)
      as Hb.
    pose proof (fun other =>
                  balance_of_update_balance_other s (User.id current_user)
                    other (PrimFloat.opp (withdraw_bank_amount request)))
      as Ho.
    pose proof (update_balance_frame s (User.id current_user)
                  (PrimFloat.opp (withdraw_bank_amount request)))
      as (_ & Htx & _ & _ & Hnow).
    destruct (update_balance s (User.id current_user)
                (PrimFloat.opp (withdraw_bank_amount request))) as [a1 s1].
    simpl in *. repeat split.
    + exact Hb.
    + intros other Hne. exact (Ho other Hne).
    + now rewrite Htx, Hnow.
Qed.

(** X8 on the small exchange: Alice withdraws 40 to her card, entry 1; Bob
    asks for 5 to the same card. *)
Lemma withdraw_to_bank_checks_card_owner_witness :
  balance_of (snd (withdraw_to_bank Example.start (mkWithdrawBank 40%float 1)
                     Example.alice)) 1 = Some 60%float
  /\ withdraw_to_bank Example.start (mkWithdrawBank 5%float 1) Example.bob
     = (HTTPError
          (mkHTTP 403 "Bank account does not belong to the current user."),
        Example.start).
Proof.
  split.
  - destruct (withdraw_to_bank_checks_card_owner Example.start
                (mkWithdrawBank 40%float 1) Example.alice
                (Account.mk 1 100%float 1) eq_refl eq_refl eq_refl)
      as (_ & Hown).
    destruct (Hown (BankAccount.mk 1 "Alice Chan" "HSBC" "6222000011112222" 1)
                (or_introl eq_refl) eq_refl eq_refl) as (_ & Hbal & _).
    exact Hbal.
  - destruct (withdraw_to_bank_checks_card_owner Example.start
                (mkWithdrawBank 5%float 1) Example.bob
                (Account.mk 2 20%float 2) eq_refl eq_refl eq_refl)
      as (Hforeign & _).
    apply Hforeign. intros card Hrow _. simpl in Hrow.
    destruct Hrow as [<-|[]]. discriminate.
Defined.

(** The debit of [withdraw_to_bank] once the card passed the ownership
    test. *)
Lemma withdraw_to_bank_debits (s : Session) (request : WithdrawBankRequest)
    (current_user : User.t) (account : Account.t) :
  is_active current_user = true ->
  get_account_by_user_id s (User.id current_user) = Some account ->
  PrimFloat.ltb (Account.balance account) (withdraw_bank_amount request)
    = false ->
  existsb (Z.eqb (withdraw_bank_account_id request))
          (map BankAccount.id
             (get_bank_accounts_by_user_id s (User.id current_user))) = true ->
  fst (withdraw_to_bank s request current_user) =
    Return [("message", JStr "Bank withdrawal initiated successfully.")]
  /\ balance_of (snd (withdraw_to_bank s request current_user))
       (User.id current_user) =
       Some (PrimFloat.add (Account.balance account)
               (PrimFloat.opp (withdraw_bank_amount request))).
Proof.
  intros Hact Hacc Hbal Hown. unfold withdraw_to_bank.
  rewrite Hact, Hacc. cbn [negb insufficient]. rewrite Hbal, Hown.
  cbn [negb].
  pose proof (balance_of_update_balance s (User.id current_user)
                (PrimFloat.opp (withdraw_bank_amount request)) account Hacc)
    as Hb.
  destruct (update_balance s (User.id current_user)
              (PrimFloat.opp (withdraw_bank_amount request))) as [a1 s1].
  split; [reflexivity | exact Hb].
Qed.

(** X9. A card that [add_user_bank_account] just bound for a user is a card
    [withdraw_to_bank] accepts from that user: with a sufficient balance, the
    withdrawal to the id of the returned card returns successfully and debits
    the balance by the amount (binary64). *)
Theorem bound_card_accepts_withdrawal (s s' : Session)
    (bank_account : BankAccountCreate) (request : WithdrawBankRequest)
    (current_user : User.t) (account : Account.t) (card : BankAccount.t) :
  add_user_bank_account s bank_account current_user = (Return card, s') ->
  get_account_by_user_id s (User.id current_user) = Some account ->
  PrimFloat.ltb (Account.balance account) (withdraw_bank_amount request)
    = false ->
  withdraw_bank_account_id request = BankAccount.id card ->
  fst (withdraw_to_bank s' request current_user) =
    Return [("message", JStr "Bank withdrawal initiated successfully.")]
  /\ balance_of (snd (withdraw_to_bank s' request current_user))
       (User.id current_user) =
       Some (PrimFloat.add (Account.balance account)
               (PrimFloat.opp (withdraw_bank_amount request))).
Proof.
  intros Hadd Hacc Hbal Hid. unfold add_user_bank_account in Hadd.
  destruct (is_active current_user) eqn:Hact; cbn [negb] in Hadd;
    [|discriminate].
  destruct (get_bank_account_by_card_number s
              (create_card_number bank_account)); [discriminate|].
  cbn [create_bank_account] in Hadd. inversion Hadd as [[Hcard Hs']].
  clear Hadd. rewrite Hs'.
  apply withdraw_to_bank_debits; auto.
  - rewrite <- Hs'. exact Hacc.
  - apply card_ids_owned. exists card. rewrite <- Hs' at 1.
    cbn [tables commit set_bank_accounts bank_accounts].
    split; [|split].
    + apply in_or_app. right. rewrite <- Hcard. now left.
    + congruence.
    + rewrite <- Hcard. reflexivity.
Qed.

(** X9 on the small exchange: Bob binds a card and withdraws 5 of his 20
    to it. *)
Lemma bound_card_accepts_withdrawal_witness :
  let bound := add_user_bank_account Example.start Desk.card Example.bob in
  balance_of (snd (withdraw_to_bank (snd bound) (mkWithdrawBank 5%float 2)
                     Example.bob)) 2 = Some 15%float.
Proof.
  destruct (bound_card_accepts_withdrawal Example.start
              (snd (add_user_bank_account Example.start Desk.card Example.bob))
              Desk.card (mkWithdrawBank 5%float 2) Example.bob
              (Account.mk 2 20%float 2)
              (BankAccount.mk 2 "Bob Lee" "Hang Seng" "6222000033334444" 2)
              eq_refl eq_refl eq_refl eq_refl) as (_ & Hbal).
  exact Hbal.
Defined.

(** ** Deposits, continued *)

(** X10. [confirm_alipay_deposit], for an active user. With an account: the
    balance becomes the binary64 sum [balance + amount], the answer carries
    that very balance as new_balance, it is the balance [read_users_me]
    reports afterwards, the accounts of the other users stay, and the log
    gains one completed deposit_alipay row. Without an account row: nothing
    is credited, yet the completed deposit_alipay row is logged all the same,
    and only then the handler fails on [updated_account.balance] with an
    [AttributeError] that nothing catches. *)
Theorem confirm_alipay_deposit_credits (s : Session)
    (request : DepositBankRequest) (current_user : User.t) :
  is_active current_user = true ->
  let r := confirm_alipay_deposit s request current_user in
  let row :=
    Transaction.mk (Z.of_nat (S (List.length (transactions (tables s)))))
      (User.id current_user) None None None None "deposit_alipay"
      (deposit_amount request) None "completed" (utcnow s) (Some (utcnow s)) in
  (forall account,
      get_account_by_user_id s (User.id current_user) = Some account ->
      let credited :=
        PrimFloat.add (Account.balance account) (deposit_amount request) in
      fst r = Return [("message",
                       JStr "Alipay deposit successful and credited.");
                      ("new_balance", JNum credited)]
      /\ balance_of (snd r) (User.id current_user) = Some credited
      /\ read_users_me (snd r) current_user = (current_user, credited)
      /\ (forall other, other <> User.id current_user ->
            get_account_by_user_id (snd r) other =
              get_account_by_user_id s other)
      /\ transactions (tables (snd r)) = (transactions (tables s) ++ [row])%list)
  /\ (get_account_by_user_id s (User.id current_user) = None ->
      fst r = Uncaught (mkExc "AttributeError"
                          "'NoneType' object has no attribute 'balance'")
      /\ accounts (tables (snd r)) = accounts (tables s)
      /\ transactions (tables (snd r)) = (transactions (tables s) ++ [row])%list).
Proof.
  intros Hact r row. unfold r, row, confirm_alipay_deposit. rewrite Hact.
  cbn [negb]. split.
  - intros account Hacc.
    pose proof (balance_of_update_balance s (User.id current_user)
                  (deposit_amount request) account Hacc) as Hb.
    pose proof (fun other =>
                  balance_of_update_balance_other s (User.id current_user)
                    other (deposit_amount request)) as Ho.
    pose proof (update_balance_frame s (User.id current_user)
                  (deposit_amount request)) as (_ & Htx & _ & _ & Hnow).
    rewrite (update_balance_found _ _ _ _ Hacc) in *.
    cbn [fst snd] in *. cbn [create_transaction fst snd].
    split; [reflexivity|]. split; [exact Hb|]. split; [|split].
    + unfold read_users_me. unfold balance_of, table_balance in Hb.
      unfold get_account_by_user_id.
      cbn [tables commit set_transactions accounts] in *.
      destruct (find _ _) as [a|]; [|discriminate].
      simpl in Hb. congruence.
    + intros other Hne. exact (Ho other Hne).
    + cbn [tables commit set_transactions transactions] in *.
      now rewrite Htx, Hnow.
  - intros Hnone. rewrite (update_balance_missing _ _ _ Hnone).
    cbn. repeat split.
Qed.

(** X10 on the small exchange: Bob, who holds 20, deposits 5; Dave, who has
    no account row, deposits 5. *)
Lemma confirm_alipay_deposit_credits_witness :
  read_users_me (snd (confirm_alipay_deposit Example.start
                        (mkDeposit 5%float) Example.bob)) Example.bob
  = (Example.bob, 25%float)
  /\ fst (confirm_alipay_deposit Example.start (mkDeposit 5%float)
            Example.dave)
     = Uncaught (mkExc "AttributeError"
                   "'NoneType' object has no attribute 'balance'")
  /\ List.length (transactions (tables
                    (snd (confirm_alipay_deposit Example.start
                            (mkDeposit 5%float) Example.dave)))) = 1%nat.
Proof.
  split; [|split].
  - destruct (confirm_alipay_deposit_credits Example.start (mkDeposit 5%float)
                Example.bob eq_refl) as (Hcredit & _).
    destruct (Hcredit (Account.mk 2 20%float 2) eq_refl)
      as (_ & _ & Hme & _).
    exact Hme.
  - destruct (confirm_alipay_deposit_credits Example.start (mkDeposit 5%float)
                Example.dave eq_refl) as (_ & Hmissing).
    destruct (Hmissing eq_refl) as (Hcrash & _).
    exact Hcrash.
  - destruct (confirm_alipay_deposit_credits Example.start (mkDeposit 5%float)
                Example.dave eq_refl) as (_ & Hmissing).
    destruct (Hmissing eq_refl) as (_ & _ & Hlog).
    rewrite Hlog. reflexivity.
Defined.

(** ** What the handlers leave alone *)

(** After [update_balance] for one user, followed by anything that keeps the
    accounts table, another user's account is what it was. *)
Lemma other_account_kept (s s' : Session) (user_id other : Z)
    (amount : float) :
  other <> user_id ->
  accounts (tables s') =
    accounts (tables (snd (update_balance s user_id amount))) ->
  get_account_by_user_id s' other = get_account_by_user_id s other.
Proof.
  intros Hne Hsame.
  rewrite <- (balance_of_update_balance_other s user_id other amount Hne).
  unfold get_account_by_user_id. now rewrite Hsame.
Qed.

(** X11. The value-moving handlers never touch a third party's account.
    Whatever the request and whatever they answer, the two deposits, the bank
    withdrawal and the chain withdrawal (against any blockchain service) leave
    the account of every user other than the caller as it was; the internal
    transfer leaves the account of every user other than the caller and the
    user the recipient email belongs to as it was. *)
Theorem third_party_accounts_untouched (s : Session) (current_user : User.t)
    (other : Z) :
  other <> User.id current_user ->
  (forall request,
      get_account_by_user_id
        (snd (confirm_alipay_deposit s request current_user)) other
      = get_account_by_user_id s other)
  /\ (forall request,
         get_account_by_user_id
           (snd (confirm_web3_deposit s request current_user)) other
         = get_account_by_user_id s other)
  /\ (forall request,
         get_account_by_user_id
           (snd (withdraw_to_bank s request current_user)) other
         = get_account_by_user_id s other)
  /\ (forall gateway request,
         get_account_by_user_id
           (snd (run gateway (withdraw_to_web3 s request current_user))) other
         = get_account_by_user_id s other)
  /\ (forall request,
         (forall recipient_user,
             get_user_by_email s (recipient_email request)
               = Some recipient_user ->
             other <> User.id recipient_user) ->
         get_account_by_user_id
           (snd (internal_transfer s request current_user)) other
         = get_account_by_user_id s other).
Proof.
  intros Hne. repeat split.
  - intros request. unfold confirm_alipay_deposit.
    destruct (negb (is_active current_user)); [reflexivity|].
    destruct (update_balance s (User.id current_user) (deposit_amount request))
      as [acc s1] eqn:E.
    cbn [create_transaction].
    assert (Hkept : get_account_by_user_id s1 other
                    = get_account_by_user_id s other).
    { apply other_account_kept
        with (user_id := User.id current_user)
             (amount := deposit_amount request); [exact Hne|].
      now rewrite E. }
    destruct acc; exact Hkept.
  - intros request. unfold confirm_web3_deposit.
    destruct (update_balance s (User.id current_user) (deposit_amount request))
      as [acc s1] eqn:E.
    apply other_account_kept
      with (user_id := User.id current_user)
           (amount := deposit_amount request); [exact Hne|].
    now rewrite E.
  - intros request. unfold withdraw_to_bank.
    destruct (negb (is_active current_user)); [reflexivity|].
    destruct (insufficient _ _); [reflexivity|].
    destruct (negb (existsb _ _)); [reflexivity|].
    destruct (update_balance s (User.id current_user)
                (PrimFloat.opp (withdraw_bank_amount request)))
      as [acc s1] eqn:E.
    apply other_account_kept
      with (user_id := User.id current_user)
           (amount := PrimFloat.opp (withdraw_bank_amount request));
      [exact Hne|].
    now rewrite E.
  - intros gateway request. unfold withdraw_to_web3.
    destruct (negb (is_active current_user)); [reflexivity|].
    destruct (insufficient _ _); [reflexivity|].
    destruct (get_whitelist_address_by_address s _) as [w|]; [|reflexivity].
    destruct (String.eqb _ _); [reflexivity|].
    cbn [run]. unfold withdraw_to_web3_settle.
    destruct (gateway _ _) as [tx_hash|e]; [|reflexivity].
    destruct (update_balance s (User.id current_user)
                (PrimFloat.opp (withdraw_amount request)))
      as [acc s1] eqn:E.
    apply other_account_kept
      with (user_id := User.id current_user)
           (amount := PrimFloat.opp (withdraw_amount request));
      [exact Hne|].
    now rewrite E.
  - intros request Hrecipient. unfold internal_transfer.
    destruct (negb (is_active current_user)); [reflexivity|].
    destruct (insufficient _ _); [reflexivity|].
    destruct (String.eqb _ _); [reflexivity|].
    destruct (get_user_by_email s (recipient_email request)) as [rcp|];
      [|reflexivity].
    destruct (negb (is_active rcp)); [reflexivity|].
    pose proof (Hrecipient rcp eq_refl) as Hne'.
    destruct (update_balance s (User.id current_user)
                (PrimFloat.opp (transfer_amount request)))
      as [a1 s1] eqn:E1.
    destruct (update_balance s1 (User.id rcp) (transfer_amount request))
      as [a2 s2] eqn:E2.
    transitivity (get_account_by_user_id s1 other).
    + apply other_account_kept
        with (user_id := User.id rcp) (amount := transfer_amount request);
        [exact Hne'|].
      now rewrite E2.
    + apply other_account_kept
        with (user_id := User.id current_user)
             (amount := PrimFloat.opp (transfer_amount request));
        [exact Hne|].
      now rewrite E1.
Qed.

(** X11 on the small exchange: Alice sends 30 to Bob; Carol's account is the
    one it was. *)
Lemma third_party_accounts_untouched_witness :
  get_account_by_user_id
    (snd (internal_transfer Example.start
            (mkTransfer "bob@example.com" 30%float) Example.alice)) 3
  = Some (Account.mk 3 0%float 3).
Proof.
  assert (Hthird : (3 <> User.id Example.alice)) by discriminate.
  destruct (third_party_accounts_untouched Example.start Example.alice 3
              Hthird) as (_ & _ & _ & _ & Htransfer).
  rewrite (Htransfer (mkTransfer "bob@example.com" 30%float)).
  - reflexivity.
  - intros recipient_user Hfound. simpl in Hfound.
    injection Hfound as <-. discriminate.
Defined.

(** ** The log *)

Lemma log_grows_same (s s' : Session) :
  transactions (tables s') = transactions (tables s) -> log_grows s s'.
Proof.
  intros H. exists []. rewrite app_nil_r. auto.
Qed.

(** The row [create_transaction] appends has a completion time exactly
    when it is created completed. *)
Lemma log_grows_row (s s1 : Session) (initiator : Z) (type : string)
    (amount : float) (status : string) (recipient : option Z)
    (from_address to_address tx_hash : option string) (bank : option Z) :
  transactions (tables s1) = transactions (tables s) ->
  log_grows s (snd (create_transaction s1 initiator type amount status
                      recipient from_address to_address tx_hash bank)).
Proof.
  intros H. eexists. cbn. rewrite H. split; [reflexivity|].
  split; [simpl; lia|]. constructor; [|constructor].
  unfold completion_matches_status. cbn.
  destruct (String.eqb status "completed") eqn:E.
  - apply String.eqb_eq in E. split; [auto | discriminate].
  - apply String.eqb_neq in E. split; [congruence | contradiction].
Qed.

Lemma update_balance_keeps_log (s : Session) (user_id : Z) (amount : float) :
  transactions (tables (snd (update_balance s user_id amount)))
    = transactions (tables s).
Proof. apply update_balance_frame. Qed.

(** X12. The transaction log is append-only. Whatever the request and the
    answer, every handler leaves each row of the log in place and unchanged
    and adds at most one row, at the end, and a row it adds has a completion
    time exactly when its status is completed. The handlers that do not move
    value (KYC, activation, registration, bank cards, whitelist
    administration) add no row at all. *)
Theorem handlers_only_append_to_log (s : Session) :
  (forall request user, log_grows s (snd (confirm_alipay_deposit s request user)))
  /\ (forall request user,
         log_grows s (snd (confirm_web3_deposit s request user)))
  /\ (forall request user, log_grows s (snd (internal_transfer s request user)))
  /\ (forall request user, log_grows s (snd (withdraw_to_bank s request user)))
  /\ (forall gateway request user,
         log_grows s (snd (run gateway (withdraw_to_web3 s request user))))
  /\ (forall kyc_data user,
         transactions (tables (snd (submit_kyc s kyc_data user)))
           = transactions (tables s))
  /\ (forall user,
         transactions (tables (snd (activate_user s user)))
           = transactions (tables s))
  /\ (forall user hashed_password,
         transactions (tables (snd (register_user s user hashed_password)))
           = transactions (tables s))
  /\ (forall bank_account user,
         transactions (tables (snd (add_user_bank_account s bank_account user)))
           = transactions (tables s))
  /\ (forall whitelist_data,
         transactions
           (tables (snd (add_address_to_global_whitelist s whitelist_data)))
           = transactions (tables s))
  /\ (forall address_id status_update,
         transactions
           (tables (snd (update_whitelist_status s address_id status_update)))
           = transactions (tables s)).
Proof.
  repeat split.
  - intros request user. unfold confirm_alipay_deposit.
    destruct (negb (is_active user)); [now apply log_grows_same|].
    pose proof (update_balance_keeps_log s (User.id user)
                  (deposit_amount request)) as Hkeep.
    destruct (update_balance s (User.id user) (deposit_amount request))
      as [acc s1].
    pose proof (log_grows_row s s1 (User.id user) "deposit_alipay"
                  (deposit_amount request) "completed" None None None None
                  None Hkeep) as Hrow.
    destruct (create_transaction s1 _ _ _ _ _ _ _ _ _) as [tx s2].
    destruct acc; exact Hrow.
  - intros request user. unfold confirm_web3_deposit.
    pose proof (update_balance_keeps_log s (User.id user)
                  (deposit_amount request)) as Hkeep.
    destruct (update_balance s (User.id user) (deposit_amount request))
      as [acc s1].
    pose proof (log_grows_row s s1 (User.id user) "deposit_web3"
                  (deposit_amount request) "completed" None None None None
                  None Hkeep) as Hrow.
    destruct (create_transaction s1 _ _ _ _ _ _ _ _ _) as [tx s2].
    exact Hrow.
  - intros request user. unfold internal_transfer.
    destruct (negb (is_active user)); [now apply log_grows_same|].
    destruct (insufficient _ _); [now apply log_grows_same|].
    destruct (String.eqb _ _); [now apply log_grows_same|].
    destruct (get_user_by_email s (recipient_email request)) as [rcp|];
      [|now apply log_grows_same].
    destruct (negb (is_active rcp)); [now apply log_grows_same|].
    pose proof (update_balance_keeps_log s (User.id user)
                  (PrimFloat.opp (transfer_amount request))) as Hk1.
    destruct (update_balance s (User.id user) _) as [a1 s1].
    pose proof (update_balance_keeps_log s1 (User.id rcp)
                  (transfer_amount request)) as Hk2.
    destruct (update_balance s1 (User.id rcp) _) as [a2 s2].
    cbn [snd] in Hk1, Hk2. rewrite Hk1 in Hk2.
    pose proof (log_grows_row s s2 (User.id user) "internal_transfer"
                  (transfer_amount request) "completed"
                  (Some (User.id rcp)) None None None None Hk2) as Hrow.
    destruct (create_transaction s2 _ _ _ _ _ _ _ _ _) as [tx s3].
    exact Hrow.
  - intros request user. unfold withdraw_to_bank.
    destruct (negb (is_active user)); [now apply log_grows_same|].
    destruct (insufficient _ _); [now apply log_grows_same|].
    destruct (negb (existsb _ _)); [now apply log_grows_same|].
    pose proof (update_balance_keeps_log s (User.id user)
                  (PrimFloat.opp (withdraw_bank_amount request))) as Hk1.
    destruct (update_balance s (User.id user) _) as [a1 s1].
    pose proof (log_grows_row s s1 (User.id user) "withdraw_bank"
                  (withdraw_bank_amount request) "completed" None None None
                  None (Some (withdraw_bank_account_id request)) Hk1) as Hrow.
    destruct (create_transaction s1 _ _ _ _ _ _ _ _ _) as [tx s2].
    exact Hrow.
  - intros gateway request user. unfold withdraw_to_web3.
    destruct (negb (is_active user)); [now apply log_grows_same|].
    destruct (insufficient _ _); [now apply log_grows_same|].
    destruct (get_whitelist_address_by_address s _) as [w|];
      [|now apply log_grows_same].
    destruct (String.eqb _ _); [now apply log_grows_same|].
    cbn [run]. unfold withdraw_to_web3_settle.
    destruct (gateway _ _) as [tx_hash|e].
    + pose proof (update_balance_keeps_log s (User.id user)
                    (PrimFloat.opp (withdraw_amount request))) as Hk1.
      destruct (update_balance s (User.id user) _) as [a1 s1].
      pose proof (log_grows_row s s1 (User.id user) "withdraw_web3"
                    (withdraw_amount request) "completed" None None
                    (Some (recipient_web3_address request)) (Some tx_hash)
                    None Hk1) as Hrow.
      destruct (create_transaction s1 _ _ _ _ _ _ _ _ _) as [tx s2].
      exact Hrow.
    + pose proof (log_grows_row s s (User.id user) "withdraw_web3"
                    (withdraw_amount request) "failed" None None
                    (Some (recipient_web3_address request)) None None eq_refl)
        as Hrow.
      destruct (create_transaction s _ _ _ _ _ _ _ _ _) as [tx s2].
      exact Hrow.
  - intros kyc_data user. unfold submit_kyc, submit_kyc_info.
    destruct (is_active user); [reflexivity|].
    destruct (get_user_by_id s (User.id user)); [|reflexivity].
    destruct (match get_user_by_identity_card_number s _ with
              | Some other => _
              | None => false
              end); reflexivity.
  - intros user. unfold activate_user, update_user_status.
    destruct (is_active user); [reflexivity|].
    destruct (get_user_by_id s (User.id user)); reflexivity.
  - intros user hashed_password. unfold register_user.
    destruct (get_user_by_email s (create_email user)); reflexivity.
  - intros bank_account user. unfold add_user_bank_account.
    destruct (negb (is_active user)); [reflexivity|].
    destruct (get_bank_account_by_card_number s _); reflexivity.
  - intros whitelist_data. unfold add_address_to_global_whitelist.
    destruct (_ || _); [reflexivity|].
    destruct (get_whitelist_address_by_address s _); reflexivity.
  - intros address_id status_update.
    unfold update_whitelist_status, update_whitelist_address_status.
    destruct (negb _); [reflexivity|].
    destruct (find _ _); reflexivity.
Qed.

(** ** KYC keeps the national-id numbers distinct *)

(** A table is the rows before the first one a filter selects, that row,
    and the rows after it; the rewrite changes that row only. *)
Lemma update_first_split {A : Type} (p : A -> bool) (f : A -> A) (l : list A)
    (y : A) :
  find p l = Some y ->
  exists before after,
    l = (before ++ y :: after)%list
    /\ update_first p f l = (before ++ f y :: after)%list.
Proof.
  induction l as [|x rest IH]; simpl; [discriminate|].
  destruct (p x) eqn:Hx.
  - intros H. inversion H; subst. exists [], rest. auto.
  - intros H. destruct (IH H) as (before & after & Hl & Hu).
    exists (x :: before), after. simpl. now rewrite <- Hl, Hu.
Qed.

Lemma map_update_first_key {A K : Type} (key : A -> K) (p : A -> bool)
    (f : A -> A) (l : list A) :
  (forall x, key (f x) = key x) ->
  map key (update_first p f l) = map key l.
Proof.
  intros Hkey. induction l as [|x rest IH]; simpl; [reflexivity|].
  destruct (p x); simpl; [now rewrite Hkey | now rewrite IH].
Qed.

Lemma NoDup_insert {A : Type} (l l' : list A) (a : A) :
  NoDup (l ++ l') -> ~ In a (l ++ l') -> NoDup (l ++ a :: l').
Proof.
  induction l as [|x rest IH]; simpl; intros Hnd Hnotin.
  - now constructor.
  - inversion Hnd as [|k ks Hx Hrest]; subst. constructor.
    + rewrite in_app_iff in *. simpl. intros [H | [H | H]]; auto.
    + apply IH; auto.
Qed.

(** A row that holds a number contributes it to the numbers in use. *)
Lemma in_identity_cards (us : list User.t) (u : User.t) (n : string) :
  In u us -> User.identity_card_number u = Some n ->
  In n (identity_cards us).
Proof.
  intros Hin Hn. unfold identity_cards. apply in_flat_map.
  exists u. split; [exact Hin|]. rewrite Hn. now left.
Qed.

Lemma identity_cards_app (us vs : list User.t) :
  identity_cards (us ++ vs) = (identity_cards us ++ identity_cards vs)%list.
Proof. unfold identity_cards. apply flat_map_app. Qed.

(** X13. The check of [submit_kyc_info] is enough to keep the unique
    constraint on national-id numbers. In a users table where no two rows
    share an id and no two rows share a number, whatever the submission and
    whatever the handler answers, afterwards still no two rows share a number
    and no two rows share an id, and the emails are what they were. *)
Theorem submit_kyc_keeps_numbers_distinct (s : Session) (kyc_data : KYCSumbit)
    (current_user : User.t) :
  user_ids_unique (users (tables s)) ->
  identity_cards_distinct (users (tables s)) ->
  let s' := snd (submit_kyc s kyc_data current_user) in
  identity_cards_distinct (users (tables s'))
  /\ user_ids_unique (users (tables s'))
  /\ map User.email (users (tables s')) = map User.email (users (tables s)).
Proof.
  intros Hids Hcards s'. unfold s', submit_kyc, submit_kyc_info.
  destruct (is_active current_user); [auto|].
  destruct (get_user_by_id s (User.id current_user)) as [db_user|] eqn:Hrow;
    [|auto].
  destruct (match get_user_by_identity_card_number s
                    (kyc_identity_card_number kyc_data) with
            | Some other => negb (User.id other =? User.id current_user)
            | None => false
            end) eqn:Htaken.
  { destruct (String.eqb _ _); auto. }
  cbn [snd tables commit set_users users].
  split; [|split].
  - unfold get_user_by_id in Hrow.
    destruct (update_first_split _ (kyc_assign kyc_data) _ _ Hrow)
      as (before & after & Hl & Hu).
    rewrite Hu. unfold identity_cards_distinct in *. rewrite Hl in Hcards.
    rewrite identity_cards_app in *. simpl in *.
    set (n := kyc_identity_card_number kyc_data) in *.
    assert (Hrest : NoDup (identity_cards before ++ identity_cards after)
                    /\ (User.identity_card_number db_user = Some n ->
                        ~ In n (identity_cards before
                                ++ identity_cards after))).
    { destruct (User.identity_card_number db_user) as [m|]; simpl in Hcards.
      - apply NoDup_remove in Hcards. destruct Hcards as [Hnd Hm].
        split; [exact Hnd|]. intros Heq. inversion Heq; subst. exact Hm.
      - split; [exact Hcards | discriminate]. }
    destruct Hrest as [Hnd Hmine].
    apply NoDup_insert; [exact Hnd|].
    intros Hheld. apply in_app_iff in Hheld.
    assert (Hholder : exists x,
               In x (users (tables s))
               /\ x <> db_user
               /\ User.identity_card_number x = Some n).
    { assert (Hfrom : forall part,
                 In n (identity_cards part) ->
                 exists x, In x part
                           /\ User.identity_card_number x = Some n).
      { intros part Hin. unfold identity_cards in Hin.
        apply in_flat_map in Hin. destruct Hin as (x & Hx & Hn).
        exists x. split; [exact Hx|].
        destruct (User.identity_card_number x) as [m|];
          simpl in Hn; [|contradiction].
        destruct Hn as [<-|[]]. reflexivity. }
      assert (Hpos : NoDup (map User.id before ++ User.id db_user
                            :: map User.id after)).
      { unfold user_ids_unique in Hids. rewrite Hl, map_app in Hids.
        exact Hids. }
      apply NoDup_remove_2 in Hpos.
      destruct Hheld as [Hin | Hin]; destruct (Hfrom _ Hin) as (x & Hx & Hn);
        exists x; (split; [rewrite Hl; apply in_or_app; simpl; auto|]);
        (split; [|exact Hn]); intros ->; apply Hpos; apply in_or_app;
        [left | right]; now apply in_map. }
    destruct Hholder as (x & Hx & Hdiff & Hn).
    destruct (get_user_by_identity_card_number_finds s n x Hx Hn)
      as [holder Hfound].
    fold n in Htaken. rewrite Hfound in Htaken.
    apply negb_false_iff, Z.eqb_eq in Htaken.
    destruct (get_user_by_identity_card_number_some s n holder Hfound)
      as [Hin_holder Hn_holder].
    assert (Hin_row : In db_user (users (tables s)))
      by (rewrite Hl; apply in_or_app; simpl; auto).
    assert (Hid_row : User.id db_user = User.id current_user).
    { apply find_some in Hrow. destruct Hrow as [_ Hid].
      now apply Z.eqb_eq in Hid. }
    assert (holder = db_user).
    { apply (NoDup_key_same_row User.id (users (tables s))); auto.
      congruence. }
    subst holder.
    apply (Hmine Hn_holder).
    assert (Hx_where : In x before \/ In x after).
    { rewrite Hl in Hx. apply in_app_iff in Hx. simpl in Hx.
      destruct Hx as [Hb | [Hb | Hb]]; auto. congruence. }
    apply in_app_iff.
    destruct Hx_where as [Hb | Hb]; [left | right];
      exact (in_identity_cards _ _ _ Hb Hn).
  - unfold user_ids_unique in *.
    rewrite map_update_first_key by reflexivity. exact Hids.
  - apply map_update_first_key. reflexivity.
Qed.

(** X13 on the small exchange: Carol submits a number of her own. *)
Lemma submit_kyc_keeps_numbers_distinct_witness :
  identity_cards_distinct
    (users (tables (snd (submit_kyc Example.start
                           (mkKYC "Carol Ho" "C1357924") Example.carol)))).
Proof.
  assert (Hids : user_ids_unique (users (tables Example.start))).
  { unfold user_ids_unique. simpl.
    repeat constructor; simpl; intuition discriminate. }
  assert (Hcards : identity_cards_distinct (users (tables Example.start))).
  { unfold identity_cards_distinct. simpl.
    repeat constructor; simpl; intuition discriminate. }
  destruct (submit_kyc_keeps_numbers_distinct Example.start
              (mkKYC "Carol Ho" "C1357924") Example.carol Hids Hcards)
    as (Hdistinct & _).
  exact Hdistinct.
Defined.

(** ** The whole balance *)

(** No binary64 value is below itself. *)
Lemma ltb_irrefl (x : float) : PrimFloat.ltb x x = false.
Proof.
  rewrite ltb_spec. unfold SFltb, SFcompare.
  destruct (Prim2SF x) as [sign|sign| |sign m e]; try reflexivity.
  - destruct sign; reflexivity.
  - destruct sign; rewrite Z.compare_refl, Pos.compare_cont_refl; reflexivity.
Qed.

(** X14. The balance check is [balance < amount], so an amount equal to the
    balance passes it, whatever the balance. For an active user with an
    account, asking for exactly the balance: the chain withdrawal to a listed
    address that is not frozen reaches the blockchain service, the bank
    withdrawal to a card of the user returns successfully, and the internal
    transfer to another, active user returns successfully. *)
Theorem whole_balance_passes_the_check (s : Session) (current_user : User.t)
    (account : Account.t) :
  is_active current_user = true ->
  get_account_by_user_id s (User.id current_user) = Some account ->
  let amount := Account.balance account in
  (forall address entry,
      get_whitelist_address_by_address s address = Some entry ->
      String.eqb (WithdrawalWhitelist.status entry) "frozen" = false ->
      withdraw_to_web3 s (mkWithdrawWeb3 amount address) current_user =
        TransferHKDC address amount s
          (withdraw_to_web3_settle (mkWithdrawWeb3 amount address)
             current_user))
  /\ (forall card,
         In card (bank_accounts (tables s)) ->
         BankAccount.user_id card = User.id current_user ->
         fst (withdraw_to_bank s (mkWithdrawBank amount (BankAccount.id card))
                current_user) =
           Return [("message",
                    JStr "Bank withdrawal initiated successfully.")])
  /\ (forall email recipient_user,
         email <> User.email current_user ->
         get_user_by_email s email = Some recipient_user ->
         is_active recipient_user = true ->
         fst (internal_transfer s (mkTransfer email amount) current_user) =
           Return [("message", JStr "Transfer successful")]).
Proof.
  intros Hact Hacc amount. split; [|split].
  - intros address entry Hlisted Hopen.
    apply (withdraw_to_web3_reaches_gateway s (mkWithdrawWeb3 amount address)
             current_user account entry); auto.
    apply ltb_irrefl.
  - intros card Hrow Huser.
    apply (withdraw_to_bank_debits s
             (mkWithdrawBank amount (BankAccount.id card)) current_user
             account); auto.
    + apply ltb_irrefl.
    + apply card_ids_owned. eauto.
  - intros email recipient_user Hne Hfound Hractive.
    rewrite (internal_transfer_passes s (mkTransfer email amount) current_user
               recipient_user); auto.
    + cbn [transfer_amount]. rewrite Hacc. apply ltb_irrefl.
    + apply String.eqb_neq. exact Hne.
Qed.

(** X14 on the small exchange: Alice sends her whole 100 to Bob. *)
Lemma whole_balance_passes_the_check_witness :
  fst (internal_transfer Example.start
         (mkTransfer "bob@example.com" 100%float) Example.alice)
  = Return [("message", JStr "Transfer successful")].
Proof.
  destruct (whole_balance_passes_the_check Example.start Example.alice
              (Account.mk 1 100%float 1) eq_refl eq_refl)
    as (_ & _ & Htransfer).
  apply (Htransfer "bob@example.com" Example.bob);
    [discriminate | reflexivity | reflexivity].
Defined.

(** ** A user without an account row *)

(** X15. [confirm_web3_deposit] never refuses. For a user with an account,
    whatever the status, the balance becomes the binary64 sum
    [balance + amount] and a completed deposit_web3 row is logged; for a user
    without an account row the handler answers that the deposit is confirmed
    and logs the completed row, while no account is credited. *)
Theorem confirm_web3_deposit_never_refuses (s : Session)
    (req : DepositBankRequest) (user : User.t) :
  let r := confirm_web3_deposit s req user in
  let row :=
    Transaction.mk (Z.of_nat (S (List.length (transactions (tables s)))))
      (User.id user) None None None None "deposit_web3"
      (deposit_amount req) None "completed" (utcnow s) (Some (utcnow s)) in
  fst r = Return [("message", JStr "Web3 deposit confirmed")]
  /\ transactions (tables (snd r)) = (transactions (tables s) ++ [row])%list
  /\ (forall account,
         get_account_by_user_id s (User.id user) = Some account ->
         balance_of (snd r) (User.id user) =
           Some (PrimFloat.add (Account.balance account) (deposit_amount req)))
  /\ (get_account_by_user_id s (User.id user) = None ->
      accounts (tables (snd r)) = accounts (tables s)).
Proof.
  intros r row. unfold r, row, confirm_web3_deposit.
  pose proof (update_balance_frame s (User.id user) (deposit_amount req))
    as (_ & Htx & _ & _ & Hnow).
  pose proof (balance_of_update_balance s (User.id user) (deposit_amount req))
    as Hb.
  pose proof (update_balance_missing s (User.id user) (deposit_amount req))
    as Hm.
  destruct (update_balance s (User.id user) (deposit_amount req)) as [a s1].
  cbn [snd fst create_transaction tables commit set_transactions
       transactions accounts] in *.
  split; [reflexivity|]. split; [now rewrite Htx, Hnow|]. split.
  - intros account Hacc. exact (Hb account Hacc).
  - intros Hnone. specialize (Hm Hnone). now inversion Hm.
Qed.

(** X15 on the small exchange: Dave, who has no account row, deposits 5. *)
Lemma confirm_web3_deposit_never_refuses_witness :
  accounts (tables (snd (confirm_web3_deposit Example.start
                           (mkDeposit 5%float) Example.dave)))
  = accounts (tables Example.start).
Proof.
  destruct (confirm_web3_deposit_never_refuses Example.start
              (mkDeposit 5%float) Example.dave) as (_ & _ & _ & Hmissing).
  exact (Hmissing eq_refl).
Defined.

(** X16. An internal transfer to a recipient who has no account row: the
    recipient being a registered, active user other than the sender, and the
    sender active and funded, the handler returns successfully, the sender is
    debited by the amount (binary64), the completed internal_transfer row is
    logged, and the account of every user other than the sender is what it
    was, so that nobody is credited. *)
Theorem internal_transfer_to_missing_account (s : Session)
    (request : TransferRequest) (current_user recipient_user : User.t)
    (sender_account : Account.t) :
  is_active current_user = true ->
  get_account_by_user_id s (User.id current_user) = Some sender_account ->
  PrimFloat.ltb (Account.balance sender_account) (transfer_amount request)
    = false ->
  recipient_email request <> User.email current_user ->
  get_user_by_email s (recipient_email request) = Some recipient_user ->
  is_active recipient_user = true ->
  get_account_by_user_id s (User.id recipient_user) = None ->
  let r := internal_transfer s request current_user in
  fst r = Return [("message", JStr "Transfer successful")]
  /\ balance_of (snd r) (User.id current_user) =
       Some (PrimFloat.add (Account.balance sender_account)
               (PrimFloat.opp (transfer_amount request)))
  /\ (forall other, other <> User.id current_user ->
        get_account_by_user_id (snd r) other = get_account_by_user_id s other)
  /\ transactions (tables (snd r)) =
       (transactions (tables s) ++
        [Transaction.mk
           (Z.of_nat (S (List.length (transactions (tables s)))))
           (User.id current_user) (Some (User.id recipient_user))
           None None None "internal_transfer" (transfer_amount request)
           None "completed" (utcnow s) (Some (utcnow s))])%list.
Proof.
  intros Hact Hacc Hbal Hne Hfound Hractive Hmissing r. unfold r.
  rewrite (internal_transfer_passes s request current_user recipient_user);
    auto.
  2: { rewrite Hacc. exact Hbal. }
  2: { apply String.eqb_neq. exact Hne. }
  assert (Hsender_ne : User.id recipient_user <> User.id current_user).
  { intros Heq. rewrite Heq, Hacc in Hmissing. discriminate. }
  set (s1 := snd (update_balance s (User.id current_user)
                    (PrimFloat.opp (transfer_amount request)))).
  assert (Hgone : get_account_by_user_id s1 (User.id recipient_user) = None).
  { unfold s1. rewrite balance_of_update_balance_other; assumption. }
  rewrite (update_balance_missing s1 _ _ Hgone).
  cbn [fst snd create_transaction tables commit set_transactions accounts
       transactions].
  destruct (update_balance_frame s (User.id current_user)
              (PrimFloat.opp (transfer_amount request)))
    as (_ & Htx & _ & _ & Hnow).
  fold s1 in Htx, Hnow.
  split; [reflexivity|]. split; [|split].
  - unfold balance_of, table_balance.
    cbn [tables commit set_transactions accounts].
    apply (balance_of_update_balance s (User.id current_user)
             (PrimFloat.opp (transfer_amount request)) sender_account Hacc).
  - intros other Hother. unfold get_account_by_user_id.
    cbn [tables commit set_transactions accounts].
    apply (balance_of_update_balance_other s (User.id current_user) other
             (PrimFloat.opp (transfer_amount request)) Hother).
  - now rewrite Htx, Hnow.
Qed.

(** X16 on the small exchange: Alice sends 30 to Dave, who has no account
    row. *)
Lemma internal_transfer_to_missing_account_witness :
  let r := internal_transfer Example.start
             (mkTransfer "dave@example.com" 30%float) Example.alice in
  balance_of (snd r) 1 = Some 70%float
  /\ get_account_by_user_id (snd r) 4 = None.
Proof.
  destruct (internal_transfer_to_missing_account Example.start
              (mkTransfer "dave@example.com" 30%float) Example.alice
              Example.dave (Account.mk 1 100%float 1)
              eq_refl eq_refl eq_refl) as (_ & Hdebit & Hothers & _);
    [discriminate | reflexivity | reflexivity | reflexivity |].
  split; [exact Hdebit|].
  rewrite Hothers; [reflexivity | discriminate].
Defined.

(** ** When value moves *)

(** X17. The blockchain service is reached exactly when the four checks of
    [withdraw_to_web3] pass: the user is active, the account exists and its
    balance is not below the amount, the address has a whitelist entry, and
    that entry is not frozen. When it is reached, it is called with the
    address and the amount of the request, from the session the request came
    with; when it is not, the handler is done with an [HTTPException] and the
    session the request came with. *)
Theorem gateway_reached_exactly_when_checks_pass (s : Session)
    (request : WithdrawWeb3Request) (current_user : User.t) :
  let st := withdraw_to_web3 s request current_user in
  (calls_gateway st = true <->
   is_active current_user = true
   /\ insufficient (get_account_by_user_id s (User.id current_user))
        (withdraw_amount request) = false
   /\ exists entry,
        get_whitelist_address_by_address s (recipient_web3_address request)
          = Some entry
        /\ String.eqb (WithdrawalWhitelist.status entry) "frozen" = false)
  /\ (calls_gateway st = true ->
      st = TransferHKDC (recipient_web3_address request)
             (withdraw_amount request) s
             (withdraw_to_web3_settle request current_user))
  /\ (calls_gateway st = false -> exists e, st = Done (HTTPError e) s).
Proof.
  intros st. unfold st, withdraw_to_web3.
  destruct (is_active current_user); cbn [negb].
  2: { split; [|split]; simpl; eauto; try discriminate.
       split; [discriminate | intros (H & _); discriminate]. }
  destruct (insufficient _ _).
  { split; [|split]; simpl; eauto; try discriminate.
    split; [discriminate | intros (_ & H & _); discriminate]. }
  destruct (get_whitelist_address_by_address s
              (recipient_web3_address request)) as [entry|].
  2: { split; [|split]; simpl; eauto; try discriminate.
       split; [discriminate | intros (_ & _ & e & H & _); discriminate]. }
  destruct (String.eqb (WithdrawalWhitelist.status entry) "frozen") eqn:Hst.
  - split; [|split]; simpl; eauto; try discriminate.
    split; [discriminate|].
    intros (_ & _ & e & H & Hopen). inversion H; subst. congruence.
  - split; [|split]; simpl; eauto; try discriminate.
    split; eauto.
Qed.

(** X17 on the small exchange: Alice's withdrawal reaches the service, the
    same request by Carol does not. *)
Lemma gateway_reached_exactly_when_checks_pass_witness :
  withdraw_to_web3 Example.start Example.withdrawal Example.alice
  = TransferHKDC Example.hot_wallet 30%float Example.start
      (withdraw_to_web3_settle Example.withdrawal Example.alice)
  /\ exists e,
       withdraw_to_web3 Example.start Example.withdrawal Example.carol
       = Done (HTTPError e) Example.start.
Proof.
  split.
  - destruct (gateway_reached_exactly_when_checks_pass Example.start
                Example.withdrawal Example.alice) as (_ & Hcalled & _).
    exact (Hcalled eq_refl).
  - destruct (gateway_reached_exactly_when_checks_pass Example.start
                Example.withdrawal Example.carol) as (_ & _ & Hdone).
    exact (Hdone eq_refl).
Defined.

(** X18. An internal transfer returns successfully exactly when its five
    checks pass: the sender is active, the sender's account exists and its
    balance is not below the amount, the recipient email is not the
    sender's, it belongs to a user, and that user is active. In every other
    case the handler raises an [HTTPException] and the session is the one the
    request came with; no other exception escapes it. *)
Theorem internal_transfer_returns_exactly_when_checks_pass (s : Session)
    (request : TransferRequest) (current_user : User.t) :
  let r := internal_transfer s request current_user in
  (fst r = Return [("message", JStr "Transfer successful")] <->
   is_active current_user = true
   /\ insufficient (get_account_by_user_id s (User.id current_user))
        (transfer_amount request) = false
   /\ recipient_email request <> User.email current_user
   /\ exists recipient_user,
        get_user_by_email s (recipient_email request) = Some recipient_user
        /\ is_active recipient_user = true)
  /\ (fst r <> Return [("message", JStr "Transfer successful")] ->
      exists e, r = (HTTPError e, s)).
Proof.
  intros r. split; [split|].
  - intros Hret.
    destruct (internal_transfer_returns s (snd r) request current_user
                [("message", JStr "Transfer successful")])
      as (Hact & Hbal & Hself & rcp & Hfound & Hractive).
    { unfold r in *.
      destruct (internal_transfer s request current_user) as [answer t].
      cbn [fst snd] in *. now f_equal. }
    repeat split; eauto. now apply String.eqb_neq.
  - intros (Hact & Hbal & Hself & rcp & Hfound & Hractive).
    unfold r. rewrite (internal_transfer_passes s request current_user rcp);
      auto.
    now apply String.eqb_neq.
  - unfold r, internal_transfer.
    destruct (negb (is_active current_user)); [eauto|].
    destruct (insufficient _ _); [eauto|].
    destruct (String.eqb _ _); [eauto|].
    destruct (get_user_by_email s (recipient_email request)) as [rcp|];
      [|eauto].
    destruct (negb (is_active rcp)); [eauto|].
    destruct (update_balance s _ _) as [a1 s1].
    destruct (update_balance s1 _ _) as [a2 s2].
    cbn [fst create_transaction]. intros H. now contradiction H.
Qed.

(** X18 on the small exchange: Alice sends 200, more than she holds. *)
Lemma internal_transfer_returns_exactly_when_checks_pass_witness :
  exists e,
    internal_transfer Example.start (mkTransfer "bob@example.com" 200%float)
      Example.alice = (HTTPError e, Example.start).
Proof.
  destruct (internal_transfer_returns_exactly_when_checks_pass Example.start
              (mkTransfer "bob@example.com" 200%float) Example.alice)
    as (_ & Hraises).
  apply Hraises. discriminate.
Defined.
